(** * bycycle.spikes.plts: the Gaussian-decomposition pipeline

    A shallow embedding of [bycycle/spikes/plts.py].

    Conventions of the embedding.
    - A 1-d numpy array of float64 is a [list R]: the values of times,
      signals, residuals and z-scores are idealised as real numbers. The
      non-finite values that numpy produces on a division by zero are kept,
      as the type [npfloat].
    - Where the code reads an integer or a truth value off a float64
      product ([int(Na_center * cyc_len)], [int(fs * xlim[0])], the
      comparisons with [xlim[0] * fs] and [xlim[1] * fs]), the product is
      the rounded one: the functions take the rounding to float64 as a
      parameter [rnd].
    - The length of [np.arange(0, n/fs, 1/fs)] is idealised ([np_arange0],
      one entry per sample); in float64 the array can hold one entry more.
    - Python and numpy integers are [Z]; lengths are [nat]. numpy's integers
      are int64: a statement that needs a sum of them not to overflow says
      so in a hypothesis ([int64]).
    - The functions of the module return [None] and act through calls to
      matplotlib and neurodsp; a run of a function is the list of the external
      calls it made, in order, together with its outcome (normal return or the
      Python exception that ended it). *)

From Stdlib Require Import Reals Lra Lia ZArith String Bool Arith List.
Import ListNotations.

Open Scope R_scope.

(** ** Python values *)

(** The exceptions the modelled code can raise. *)
Inductive exn : Type :=
| IndexError
| ValueError
| ZeroDivisionError
| UnboundLocalError.

Inductive pyresult (A : Type) : Type :=
| Ok (a : A)
| Raise (e : exn).
Arguments Ok {A} a.
Arguments Raise {A} e.

(** A float64 result of a numpy division: finite, or one of the IEEE special
    values. *)
Inductive npfloat : Type :=
| Finite (r : R)
| PosInf
| NegInf
| NaN.

(** numpy's [x / y] on float64 (a warning, never an exception, when [y] is
    zero). *)
Definition np_true_divide (x y : R) : npfloat :=
  if Req_dec_T y 0 then
    if Req_dec_T x 0 then NaN
    else if Rlt_dec 0 x then PosInf else NegInf
  else Finite (x / y).

(** Python's [int(x)] on a float: truncation towards zero. *)
Definition py_int (x : R) : Z :=
  if Rle_dec 0 x then Int_part x else (- Int_part (- x))%Z.

(** ** Rounding and machine integers *)

(** The result of a float64 operation is the exact result rounded to a
    float64 number. [rnd x] stands for the float64 number that the real [x]
    is rounded to; it is a parameter of the functions below, and a statement
    assumes of it only what it names: that it is monotone, or that it leaves
    a given float64 number unchanged. *)
Definition rounding : Type := R -> R.

Definition rounding_monotone (rnd : rounding) : Prop :=
  forall x y : R, x <= y -> rnd x <= rnd y.

(** The rounding of the worked examples, whose products are float64
    numbers. *)
Definition exact_rounding : rounding := fun x => x.

(** The values of numpy's int64. *)
Definition int64 (z : Z) : Prop :=
  (- 9223372036854775808 <= z < 9223372036854775808)%Z.

(** ** Slices *)

Section Slices.
Context {A : Type}.

(** How Python resolves one bound of [a[i:j]] on a sequence of length [n]:
    a negative bound counts from the end, and the result is clipped to
    [0..n]. *)
Definition slice_bound (n i : Z) : Z :=
  if (i <? 0)%Z then Z.max (i + n) 0 else Z.min i n.

(** [a[lo:hi]]; [None] is an omitted bound. *)
Definition py_slice (lo hi : option Z) (a : list A) : list A :=
  let n := Z.of_nat (length a) in
  let i := match lo with Some i => slice_bound n i | None => 0%Z end in
  let j := match hi with Some j => slice_bound n j | None => n end in
  firstn (Z.to_nat (j - i)) (skipn (Z.to_nat i) a).

(** [a[i]] on a Python sequence: negative indices count from the end,
    anything else out of range raises [IndexError]. *)
Definition py_getitem (a : list A) (i : Z) : pyresult A :=
  let n := Z.of_nat (length a) in
  let k := if (i <? 0)%Z then (i + n)%Z else i in
  if ((0 <=? k)%Z && (k <? n)%Z)%bool then
    match nth_error a (Z.to_nat k) with
    | Some x => Ok x
    | None => Raise IndexError
    end
  else Raise IndexError.
End Slices.

(** ** Array arithmetic *)

Fixpoint np_sum (a : list R) : R :=
  match a with
  | [] => 0
  | x :: t => x + np_sum t
  end.

(** [a.mean()]. *)
Definition np_mean (a : list R) : R := np_sum a / INR (length a).

(** [a.std()] with the default [ddof=0]. *)
Definition np_std (a : list R) : R :=
  sqrt (np_mean (map (fun x => (x - np_mean a) * (x - np_mean a)) a)).

(** [scipy.stats.zscore(a)] with its defaults ([axis=0], [ddof=0],
    [nan_policy='propagate']) on a 1-d array: [(a - a.mean()) / a.std()],
    elementwise. It has no check of its own on the input and raises nothing
    on an empty or a constant array. *)
Definition zscore (a : list R) : list npfloat :=
  map (fun x => np_true_divide (x - np_mean a) (np_std a)) a.

Fixpoint zip_minus (a b : list R) : list R :=
  match a, b with
  | x :: a', y :: b' => (x - y) :: zip_minus a' b'
  | _, _ => []
  end.

(** [a - b] on 1-d arrays, with numpy's broadcasting: equal lengths, or one
    operand of length 1; anything else raises [ValueError]. *)
Definition np_subtract (a b : list R) : pyresult (list R) :=
  if (length a =? length b)%nat then Ok (zip_minus a b)
  else match a, b with
       | [x], _ => Ok (map (fun y => x - y) b)
       | _, [y] => Ok (map (fun x => x - y) a)
       | _, _ => Raise ValueError
       end.

(** [np.arange(0, n/fs, 1/fs)]: in exact arithmetic it has
    [ceil((n/fs) / (1/fs)) = n] elements, the [i]-th being [0 + i * (1/fs)];
    [step] is the value of [1/fs]. In float64 the quotient can round to just
    above [n], and the array then has one more element, [n * (1/fs)]. *)
Definition np_arange0 (n : nat) (step : R) : list R :=
  map (fun i => 0 + INR i * step) (seq 0 n).

(** [np.argmin(a)]: the first index of the minimum; [ValueError] on an empty
    array. *)
Fixpoint argmin_from (best : R) (besti i : nat) (a : list R) : nat :=
  match a with
  | [] => besti
  | x :: t =>
      if Rlt_dec x best then argmin_from x i (S i) t
      else argmin_from best besti (S i) t
  end.

Definition np_argmin (a : list R) : pyresult nat :=
  match a with
  | [] => Raise ValueError
  | x :: t => Ok (argmin_from x 0 1 t)
  end.

(** ** Runs: external calls and outcome *)

(** The calls the module makes to neurodsp and matplotlib. Keyword arguments
    that only style a drawing (label, color, marker, line style) are left
    out. *)
Inductive call : Type :=
| sim_call (n_seconds fs center std alpha height : R)
| plt_plot_y (y : list R)
| plt_plot_xy (x y : list R)
| plt_plot_xz (x : list R) (z : list npfloat)
| plt_axvline (x : Z)
| plt_title (s : string)
| plt_ylabel (s : string)
| plt_legend
| plt_show.

Record run (A : Type) : Type := mkRun {
  calls : list call;
  outcome : pyresult A
}.
Arguments mkRun {A} calls outcome.
Arguments calls {A} r.
Arguments outcome {A} r.

Definition ret {A : Type} (a : A) : run A := mkRun [] (Ok a).
Definition raise {A : Type} (e : exn) : run A := mkRun [] (Raise e).
Definition lift {A : Type} (r : pyresult A) : run A := mkRun [] r.
Definition emit (c : call) : run unit := mkRun [c] (Ok tt).

(** Sequencing: an exception ends the run, the calls made so far stay. *)
Definition bind {A B : Type} (m : run A) (f : A -> run B) : run B :=
  match outcome m with
  | Ok a => mkRun (calls m ++ calls (f a)) (outcome (f a))
  | Raise e => mkRun (calls m) (Raise e)
  end.

Declare Scope run_scope.
Delimit Scope run_scope with run.
Notation "x <- m ;; k" := (bind m (fun x => k))
  (at level 61, m at next level, right associativity) : run_scope.
Notation "m ;; k" := (bind m (fun _ => k))
  (at level 61, right associativity) : run_scope.
Open Scope run_scope.

Definition raises {A : Type} (r : run A) (e : exn) : Prop :=
  outcome r = Raise e.

Definition fails {A : Type} (r : run A) : Prop := exists e, raises r e.

(** Python's [x / y] on floats: [ZeroDivisionError] when [y] is zero. *)
Definition py_truediv (x y : R) : pyresult R :=
  if Req_dec_T y 0 then Raise ZeroDivisionError else Ok (x / y).

(** A list comprehension whose body may raise: left to right, the first
    exception ends it. *)
Fixpoint comprehension {A B : Type} (f : A -> pyresult B) (l : list A)
  : pyresult (list B) :=
  match l with
  | [] => Ok []
  | x :: t =>
      match f x with
      | Raise e => Raise e
      | Ok y =>
          match comprehension f t with
          | Raise e => Raise e
          | Ok ys => Ok (y :: ys)
          end
      end
  end.

(** [plt.plot(x, y)]: matplotlib raises [ValueError] when [x] and [y] differ
    in length. *)
Definition plot_xy (x y : list R) : run unit :=
  if (length x =? length y)%nat then emit (plt_plot_xy x y)
  else raise ValueError.

Definition plot_xz (x : list R) (z : list npfloat) : run unit :=
  if (length x =? length z)%nat then emit (plt_plot_xz x z)
  else raise ValueError.

(** [fs * times]. *)
Definition scale (fs : R) (times : list R) : list R := map (Rmult fs) times.

(** ** The feature table *)

(** One row of [df_features], with the columns [plot_gaussian_fit] reads.
    [sample_start] and [sample_end] are the values after [.astype(int)],
    int64 numbers; [end + 1] is an int64 sum. *)
Record CycleRecord : Type := {
  sample_start : Z;
  sample_end : Z;
  Na_center : R; Na_std : R; Na_alpha : R; Na_height : R;
  Cond_center : R; Cond_std : R; Cond_alpha : R; Cond_height : R;
  K_center : R; K_std : R; K_alpha : R; K_height : R
}.

(** ** [_infer_labels] *)

(** Neither branch taken leaves [labels] unbound, and the [return] raises
    [UnboundLocalError]. *)
Definition _infer_labels (center_e : string)
  : pyresult (list string * list string) :=
  if String.eqb center_e "trough" then
    Ok (["Trough"; "Peak"; "Inflection"]%string,
        ["sample_trough"; "sample_next_peak"; "sample_end"]%string)
  else if String.eqb center_e "peak" then
    Ok (["Peak"; "Trough"; "Inflection"]%string,
        ["sample_peak"; "sample_next_trough"; "sample_end"]%string)
  else Raise UnboundLocalError.

(** ** [plot_sing_gaus] *)

Definition plot_sing_gaus (gaus sig : list R) (current_type : string)
  : run unit :=
  emit (plt_plot_y gaus) ;;
  emit (plt_plot_y sig) ;;
  emit (plt_title (current_type ++ " current gaussian fit")) ;;
  emit (plt_ylabel "Voltage (uV)") ;;
  emit plt_legend ;;
  emit plt_show.

(** ** [plot_gaussian_fit] *)

(** [sig[start:end+1]], the cycle of one row (lines 126-130); [plot_spikes]
    takes the same slice for a single spike (lines 49-52). *)
Definition extract_cycle (df_features : CycleRecord) (sig : list R) : list R :=
  py_slice (Some (sample_start df_features))
           (Some (sample_end df_features + 1)%Z) sig.

(** Lines 126-132: the cycle and its time axis. *)
Definition waveform_extractor (df_features : CycleRecord) (sig : list R)
    (fs : R) : run (list R * list R) :=
  let sig_cyc := extract_cycle df_features sig in
  let cyc_len := length sig_cyc in
  stop <- lift (py_truediv (INR cyc_len) fs) ;;
  step <- lift (py_truediv 1 fs) ;;
  ret (sig_cyc, np_arange0 cyc_len step).

(** Line 142: [int(df_features['Na_center'] * cyc_len)], the float64
    product truncated. *)
Definition split_index (rnd : rounding) (df_features : CycleRecord)
    (cyc_len : nat) : Z :=
  py_int (rnd (Na_center df_features * INR cyc_len)).

(** [a[na_center:]] and [a[:na_center]]. *)
Definition region_k {A : Type} (na_center : Z) (a : list A) : list A :=
  py_slice (Some na_center) None a.

Definition region_cond {A : Type} (na_center : Z) (a : list A) : list A :=
  py_slice None (Some na_center) a.

(** Lines 144-148: the remaining signal and its two regions, with their time
    axes. *)
Definition residual_decomposer (na_center : Z)
    (sig_cyc na_gaus times_cyc : list R)
  : run (list R * list R * list R * list R) :=
  rem_sig <- lift (np_subtract sig_cyc na_gaus) ;;
  let rem_sig_k := region_k na_center rem_sig in
  let rem_sig_cond := region_cond na_center rem_sig in
  let times_k := region_k na_center times_cyc in
  let times_cond := region_cond na_center times_cyc in
  ret (rem_sig_k, rem_sig_cond, times_k, times_cond).

(** Lines 160-161: the z-scores of the two regions. *)
Definition normalize_regions (rem_sig_k rem_sig_cond : list R)
  : run (list npfloat * list npfloat) :=
  let z_score_k := zscore rem_sig_k in
  let z_score_cond := zscore rem_sig_cond in
  ret (z_score_k, z_score_cond).

Section Pipeline.
Variable rnd : rounding.
(** neurodsp's [sim_skewed_gaussian_cycle(n_seconds, fs, center, std, alpha,
    height)], an external pure function. *)
Variable sim_skewed_gaussian_cycle : R -> R -> R -> R -> R -> R -> list R.

Definition simulate (n_seconds fs center std alpha height : R)
  : run (list R) :=
  emit (sim_call n_seconds fs center std alpha height) ;;
  ret (sim_skewed_gaussian_cycle n_seconds fs center std alpha height).

(** Lines 173-193: the fits of the two regions and the plot of all the
    fits. *)
Definition fit_regions (df_features : CycleRecord) (fs : R)
    (sig_cyc na_gaus rem_sig_cond rem_sig_k times_cond times_k : list R)
  : run unit :=
  n_seconds_cond <- lift (py_truediv (INR (length rem_sig_cond)) fs) ;;
  n_seconds_k <- lift (py_truediv (INR (length rem_sig_k)) fs) ;;
  cond_gaus <- simulate n_seconds_cond fs (Cond_center df_features)
                 (Cond_std df_features) (Cond_alpha df_features)
                 (Cond_height df_features) ;;
  k_gaus <- simulate n_seconds_k fs (K_center df_features)
              (K_std df_features) (K_alpha df_features)
              (K_height df_features) ;;
  plot_sing_gaus cond_gaus rem_sig_cond "Conductive" ;;
  plot_sing_gaus k_gaus rem_sig_k "K" ;;
  emit (plt_plot_y sig_cyc) ;;
  emit (plt_plot_y na_gaus) ;;
  plot_xy (scale fs times_k) k_gaus ;;
  plot_xy (scale fs times_cond) cond_gaus ;;
  emit (plt_ylabel "Voltage (uV)") ;;
  emit (plt_title "All gaussian fits found") ;;
  emit plt_show.

Definition plot_gaussian_fit (df_features : CycleRecord) (sig : list R)
    (fs z_thresh_cond z_thresh_k : R) : run unit :=
  cyc <- waveform_extractor df_features sig fs ;;
  let sig_cyc := fst cyc in
  let times_cyc := snd cyc in
  let cyc_len := length sig_cyc in
  n_seconds <- lift (py_truediv (INR cyc_len) fs) ;;
  na_gaus <- simulate n_seconds fs (Na_center df_features)
               (Na_std df_features) (Na_alpha df_features)
               (Na_height df_features) ;;
  plot_sing_gaus na_gaus sig_cyc "Na" ;;
  let na_center := split_index rnd df_features cyc_len in
  rem <- residual_decomposer na_center sig_cyc na_gaus times_cyc ;;
  let '(rem_sig_k, rem_sig_cond, times_k, times_cond) := rem in
  plot_xy (scale fs times_k) rem_sig_k ;;
  plot_xy (scale fs times_cond) rem_sig_cond ;;
  emit (plt_axvline na_center) ;;
  emit (plt_title "Remaining signal after subtracting Na current gaussian fit") ;;
  emit plt_legend ;;
  emit (plt_ylabel "Voltage (uV)") ;;
  emit plt_show ;;
  z <- normalize_regions rem_sig_k rem_sig_cond ;;
  let z_score_k := fst z in
  let z_score_cond := snd z in
  plot_xz (scale fs times_k) z_score_k ;;
  plot_xz (scale fs times_cond) z_score_cond ;;
  plot_xy (scale fs times_k) (repeat z_thresh_k (length times_k)) ;;
  emit (plt_axvline na_center) ;;
  plot_xy (scale fs times_cond) (repeat z_thresh_cond (length times_cond)) ;;
  emit (plt_title "Remaining signal z-scores") ;;
  emit (plt_ylabel "Z-score") ;;
  emit plt_legend ;;
  emit plt_show ;;
  fit_regions df_features fs sig_cyc na_gaus rem_sig_cond rem_sig_k
              times_cond times_k.
End Pipeline.

(** ** [plot_gen_spikes] *)

(** The loop over the generated spikes. [np.argmin(...)/fs] is a numpy
    division and raises nothing; when [fs] is zero its value is not used,
    since the first division of the comprehension raises. *)
Fixpoint plot_aligned (fs align_point : R) (spikes : list (list R))
  : run unit :=
  match spikes with
  | [] => ret tt
  | spike :: rest =>
      am <- lift (np_argmin spike) ;;
      let trough := INR am / fs in
      let shift := trough - align_point in
      let times := seq 1 (length spike) in
      align_times <- lift (comprehension
                             (fun x => match py_truediv (INR x) fs with
                                       | Ok t => Ok (t - shift)
                                       | Raise e => Raise e
                                       end) times) ;;
      plot_xy align_times spike ;;
      emit (plt_ylabel "Voltage (uV)") ;;
      plot_aligned fs align_point rest
  end.

(** [xlim] and [ax] are not used by the function. *)
Definition plot_gen_spikes (fs : R) (spikes_gen : list (list R))
    (index : option Z) : run unit :=
  match index with
  | Some i =>
      spike <- lift (py_getitem spikes_gen i) ;;
      let times := seq 1 (length spike) in
      plot_times <- lift (comprehension (fun x => py_truediv (INR x) fs)
                                        times) ;;
      plot_xy plot_times spike ;;
      emit (plt_ylabel "Voltage (uV)")
  | None =>
      first <- lift (py_getitem spikes_gen 0) ;;
      am <- lift (np_argmin first) ;;
      let align_point := INR am / fs in
      plot_aligned fs align_point spikes_gen
  end.

(** ** [plot_spikes] *)

(** The table [df_features] with its dynamic columns: the names of the
    columns, and the rows, each giving the integer held in every column (the
    sample columns and [period] hold int64 numbers, on which [.astype(int)]
    is the identity). *)
Record DataFrame : Type := {
  columns : list string;
  rows : list (string -> Z)
}.

(** The exceptions of [plot_spikes]: those above, and pandas' [KeyError] for
    a column the table does not have. *)
Inductive spikes_exn : Type :=
| Builtin (e : exn)
| KeyError (key : string).

Inductive spikes_result (A : Type) : Type :=
| Returns (a : A)
| Throws (e : spikes_exn).
Arguments Returns {A} a.
Arguments Throws {A} e.

(** The second argument of neurodsp's [plot_time_series]: one signal or a
    stack of signals. *)
Inductive signals : Type :=
| Sig1d (sig : list R)
| Sig2d (sigs : list (list R)).

(** The calls [plot_spikes] makes to neurodsp; [ls] and [marker] are left
    out. *)
Inductive spikes_call : Type :=
| check_ax (width height : Z)
| plot_time_series (times : list R) (sigs : signals)
                   (xlim : option (R * R)) (colors labels : option string)
| plot_bursts (times sig : list R) (is_spike : list bool).

Record spikes_run (A : Type) : Type := mkSpikesRun {
  drawn : list spikes_call;
  result : spikes_result A
}.
Arguments mkSpikesRun {A} drawn result.
Arguments drawn {A} s.
Arguments result {A} s.

Definition s_ret {A : Type} (a : A) : spikes_run A :=
  mkSpikesRun [] (Returns a).
Definition s_lift {A : Type} (r : spikes_result A) : spikes_run A :=
  mkSpikesRun [] r.
Definition s_emit (c : spikes_call) : spikes_run unit :=
  mkSpikesRun [c] (Returns tt).

(** An operation of Python or numpy, with its exception if it raises. *)
Definition builtin {A : Type} (r : pyresult A) : spikes_run A :=
  match r with
  | Ok a => mkSpikesRun [] (Returns a)
  | Raise e => mkSpikesRun [] (Throws (Builtin e))
  end.

Definition s_bind {A B : Type} (m : spikes_run A) (f : A -> spikes_run B)
  : spikes_run B :=
  match result m with
  | Returns a => mkSpikesRun (drawn m ++ drawn (f a)) (result (f a))
  | Throws e => mkSpikesRun (drawn m) (Throws e)
  end.

Declare Scope spikes_scope.
Delimit Scope spikes_scope with spikes.
Notation "x <- m ;; k" := (s_bind m (fun x => k))
  (at level 61, m at next level, right associativity) : spikes_scope.
Notation "m ;; k" := (s_bind m (fun _ => k))
  (at level 61, right associativity) : spikes_scope.

Definition has_column (df : DataFrame) (key : string) : bool :=
  existsb (String.eqb key) (columns df).

(** [df[key]]: the values of a column, [KeyError] without it. *)
Definition column (df : DataFrame) (key : string)
  : spikes_result (list Z) :=
  if has_column df key then Returns (map (fun row => row key) (rows df))
  else Throws (KeyError key).

(** [df.iloc[index][key]]: [IndexError] for a row outside the table, then
    [KeyError] for a column the table does not have. *)
Definition cell (df : DataFrame) (index : Z) (key : string)
  : spikes_result Z :=
  match py_getitem (rows df) index with
  | Raise e => Throws (Builtin e)
  | Ok row => if has_column df key then Returns (row key)
              else Throws (KeyError key)
  end.

(** [df.iloc[mask]] with a boolean mask. *)
Fixpoint select_rows {A : Type} (mask : list bool) (l : list A) : list A :=
  match mask, l with
  | b :: mask', x :: l' =>
      if b then x :: select_rows mask' l' else select_rows mask' l'
  | _, _ => []
  end.

(** [a[lo:hi] = v] on a numpy array. *)
Definition set_slice {A : Type} (lo hi : Z) (v : A) (a : list A) : list A :=
  let n := Z.of_nat (length a) in
  let i := slice_bound n lo in
  let j := slice_bound n hi in
  firstn (Z.to_nat i) a ++ repeat v (Z.to_nat (j - i))
         ++ skipn (Z.to_nat (Z.max i j)) a.

(** Lines 102-105: the mask of the samples inside a cycle. *)
Definition spike_mask (n : nat) (starts ends : list Z) : list bool :=
  fold_left (fun is_spike cyc => set_slice (fst cyc) (snd cyc) true is_spike)
            (combine starts ends) (repeat false n).

Fixpoint zip_add (a b : list Z) : list Z :=
  match a, b with
  | x :: a', y :: b' => (x + y)%Z :: zip_add a' b'
  | _, _ => []
  end.

Open Scope spikes_scope.

(** Lines 62-67: the loop over the cyclepoints. *)
Fixpoint plot_cyclepoints (df_features : DataFrame) (index : Z)
    (times sig : list R) (colors labels : list string) (idx : nat)
    (keys : list string) : spikes_run unit :=
  match keys with
  | [] => s_ret tt
  | key :: keys' =>
      sample <- s_lift (cell df_features index key) ;;
      t <- builtin (py_getitem times sample) ;;
      v <- builtin (py_getitem sig sample) ;;
      color <- builtin (py_getitem colors (Z.of_nat idx)) ;;
      label <- builtin (py_getitem labels (Z.of_nat idx)) ;;
      s_emit (plot_time_series [t] (Sig1d [v]) None (Some color)
                               (Some label)) ;;
      plot_cyclepoints df_features index times sig colors labels (S idx) keys'
  end.

Section PlotSpikes.
Variable rnd : rounding.
(** [get_extrema_df] and [limit_signal] of [bycycle.utils], external pure
    functions. *)
Variable get_extrema_df : DataFrame -> string * string.
Variable limit_signal : list R -> list R -> R -> R -> list R * list R.

(** [sig] is taken 1-d; [ax] is only passed on to the plotting calls. In the
    comparisons of lines 91-92 numpy converts the int64 columns to
    float64. *)
Definition plot_spikes (df_features : DataFrame) (sig : list R) (fs : R)
    (spikes : option (list (list R))) (index : option Z)
    (xlim : option (R * R)) : spikes_run unit :=
  s_emit (check_ax 10 4) ;;
  let center_e := fst (get_extrema_df df_features) in
  match index, spikes with
  | Some index, _ =>
      stop <- builtin (py_truediv (INR (length sig)) fs) ;;
      step <- builtin (py_truediv 1 fs) ;;
      let times := np_arange0 (length sig) step in
      start <- s_lift (cell df_features index "sample_start") ;;
      end_ <- s_lift (cell df_features index "sample_end") ;;
      let sig_lim := py_slice (Some start) (Some (end_ + 1)%Z) sig in
      let times_lim := py_slice (Some start) (Some (end_ + 1)%Z) times in
      s_emit (plot_time_series times_lim (Sig1d sig_lim) None None None) ;;
      inferred <- builtin (_infer_labels center_e) ;;
      let labels := fst inferred in
      let keys := snd inferred in
      let colors := ["C0"; "C1"; "C2"; "C3"]%string in
      plot_cyclepoints df_features index times sig colors labels 0 keys
  | None, Some spikes =>
      first <- builtin (py_getitem spikes 0) ;;
      stop <- builtin (py_truediv (INR (length first)) fs) ;;
      step <- builtin (py_truediv 1 fs) ;;
      let times := np_arange0 (length first) step in
      s_emit (plot_time_series times (Sig2d spikes) None None None)
  | None, None =>
      s_emit (check_ax 15 3) ;;
      stop <- builtin (py_truediv (INR (length sig)) fs) ;;
      step <- builtin (py_truediv 1 fs) ;;
      let times := np_arange0 (length sig) step in
      s_emit (plot_time_series times (Sig1d sig) xlim None None) ;;
      lim <- match xlim with
             | None =>
                 starts <- s_lift (column df_features "sample_start") ;;
                 s_ret (sig, df_features, times, starts)
             | Some (lo, hi) =>
                 col_start <- s_lift (column df_features "sample_start") ;;
                 col_end <- s_lift (column df_features "sample_end") ;;
                 let cyc_idxs :=
                   map (fun se =>
                          (if Rle_dec (rnd (lo * fs)) (rnd (IZR (fst se)))
                           then true else false)
                          && (if Rle_dec (rnd (IZR (snd se))) (rnd (hi * fs))
                              then true else false))%bool
                       (combine col_start col_end) in
                 let df_lim :=
                   {| columns := columns df_features;
                      rows := select_rows cyc_idxs (rows df_features) |} in
                 let limited := limit_signal times sig lo hi in
                 lim_start <- s_lift (column df_lim "sample_start") ;;
                 let starts :=
                   map (fun s => (s - py_int (rnd (fs * lo)%R))%Z) lim_start in
                 s_ret (fst limited, df_lim, snd limited, starts)
             end ;;
      let '(sig_lim, df_lim, times_lim, starts) := lim in
      periods <- s_lift (column df_lim "period") ;;
      let ends := zip_add starts periods in
      let is_spike := spike_mask (length sig_lim) starts ends in
      s_emit (plot_bursts times_lim sig_lim is_spike)
  end.
End PlotSpikes.

Close Scope spikes_scope.

(** ** The split index as the specification words it *)

(** Rounding to the nearest integer, ties to the even one (Python's
    [round]). *)
Definition round_half_even (x : R) : Z :=
  let f := Int_part x in
  if Rlt_dec (x - IZR f) (1 / 2) then f
  else if Rlt_dec (1 / 2) (x - IZR f) then (f + 1)%Z
  else if Z.even f then f else (f + 1)%Z.

(** [round(center * L)], clamped to [[0, L]]. *)
Definition spec_split_index (center : R) (L : nat) : Z :=
  Z.max 0 (Z.min (Z.of_nat L) (round_half_even (center * INR L))).

(** ** Auxiliary definitions for the statements *)


Definition is_sim_call (c : call) : bool :=
  match c with
  | sim_call _ _ _ _ _ _ => true
  | _ => false
  end.

(** The calls of a run to the synthesizer, in order. *)
Definition sim_calls {A : Type} (r : run A) : list call :=
  filter is_sim_call (calls r).

(** The index [np.argmin] returns on a non-empty array. *)
Definition argmin_index (a : list R) : nat :=
  match a with
  | [] => 0
  | x :: t => argmin_from x 0 1 t
  end.

(** The time axis the loop of [plot_gen_spikes] draws a spike against. *)
Definition aligned_times (fs align_point : R) (spike : list R) : list R :=
  map (fun x => INR x / fs - (INR (argmin_index spike) / fs - align_point))
      (seq 1 (length spike)).

Definition aligned_calls (fs align_point : R) (spike : list R) : list call :=
  [plt_plot_xy (aligned_times fs align_point spike) spike;
   plt_ylabel "Voltage (uV)"].

(** The calls of [plot_gaussian_fit] between the call for the sodium fit and
    the fits of the regions (lines 140-171), when none of them raises. *)
Definition calls_before_fit (fs z_thresh_cond z_thresh_k : R) (na_center : Z)
    (sig_cyc na_gaus rem_sig_k rem_sig_cond times_k times_cond : list R)
  : list call :=
  [plt_plot_y na_gaus; plt_plot_y sig_cyc;
   plt_title ("Na" ++ " current gaussian fit");
   plt_ylabel "Voltage (uV)"; plt_legend; plt_show;
   plt_plot_xy (scale fs times_k) rem_sig_k;
   plt_plot_xy (scale fs times_cond) rem_sig_cond;
   plt_axvline na_center;
   plt_title "Remaining signal after subtracting Na current gaussian fit";
   plt_legend; plt_ylabel "Voltage (uV)"; plt_show;
   plt_plot_xz (scale fs times_k) (zscore rem_sig_k);
   plt_plot_xz (scale fs times_cond) (zscore rem_sig_cond);
   plt_plot_xy (scale fs times_k) (repeat z_thresh_k (length times_k));
   plt_axvline na_center;
   plt_plot_xy (scale fs times_cond)
               (repeat z_thresh_cond (length times_cond));
   plt_title "Remaining signal z-scores"; plt_ylabel "Z-score";
   plt_legend; plt_show].

(** The end-to-end scenario: a ramp of ten samples at 10 Hz, a sodium centre
    of 0.3, and a synthesizer that answers the three calls of the run. *)
Definition scenario_sig : list R := [0; 1; 2; 3; 4; 5; 6; 7; 8; 9].

Definition scenario_row : CycleRecord :=
  {| sample_start := 0; sample_end := 9;
     Na_center := 3 / 10; Na_std := 1; Na_alpha := 0; Na_height := 1;
     Cond_center := 1 / 2; Cond_std := 1; Cond_alpha := 0; Cond_height := 1;
     K_center := 1 / 2; K_std := 1; K_alpha := 0; K_height := 1 |}.

Definition scenario_primary : list R := [0; 1; 2; 1; 1; 1; 1; 1; 1; 1].

Definition scenario_sim (n_seconds fs center std alpha height : R) : list R :=
  if Req_dec_T n_seconds 1 then scenario_primary
  else if Req_dec_T n_seconds (3 / 10) then repeat 0 3
  else repeat 0 7.


(** The time axis [plot_gen_spikes] draws a single spike against. *)
Definition single_times (fs : R) (spike : list R) : list R :=
  map (fun x => INR x / fs) (seq 1 (length spike)).



(** A small table and stand-ins for the external functions, for the worked
    examples of [plot_spikes]. *)
Definition row_of_cells (cells : list (string * Z)) (key : string) : Z :=
  match find (fun c => String.eqb key (fst c)) cells with
  | Some c => snd c
  | None => 0%Z
  end.

Definition demo_table : DataFrame :=
  {| columns := ["sample_start"; "sample_end"; "period"; "sample_trough";
                 "sample_next_peak"]%string;
     rows := [row_of_cells [("sample_start", 1); ("sample_end", 3);
                            ("period", 3); ("sample_trough", 2);
                            ("sample_next_peak", 3)]%string%Z;
              row_of_cells [("sample_start", 4); ("sample_end", 5);
                            ("period", 2); ("sample_trough", 4);
                            ("sample_next_peak", 5)]%string%Z] |}.

Definition demo_sig : list R := [0; 1; 2; 3; 4; 5].

Definition trough_centered (df : DataFrame) : string * string :=
  ("trough", "peak")%string.

Definition no_limit (times sig : list R) (lo hi : R) : list R * list R :=
  (sig, times).


(** Rows and a synthesizer for the worked examples. *)
Definition row_of (start stop : Z) : CycleRecord :=
  {| sample_start := start; sample_end := stop;
     Na_center := 3 / 4; Na_std := 1; Na_alpha := 0; Na_height := 1;
     Cond_center := 1 / 2; Cond_std := 1; Cond_alpha := 0; Cond_height := 1;
     K_center := 1 / 2; K_std := 1; K_alpha := 0; K_height := 1 |}.

Definition row_with_center (center : R) : CycleRecord :=
  {| sample_start := 0; sample_end := 4;
     Na_center := center; Na_std := 1; Na_alpha := 0; Na_height := 1;
     Cond_center := 1 / 2; Cond_std := 1; Cond_alpha := 0; Cond_height := 1;
     K_center := 1 / 2; K_std := 1; K_alpha := 0; K_height := 1 |}.

Definition flat_cycle (n : nat) (n_seconds fs center std alpha height : R)
  : list R := repeat 0 n.

(** * Properties *)

(** ** Runs *)



Lemma bind_lift_ok {A B : Type} (a : A) (f : A -> run B) :
  bind (lift (Ok a)) f = f a.
Proof. unfold bind, lift. simpl. destruct (f a); reflexivity. Qed.

Lemma bind_ret {A B : Type} (a : A) (f : A -> run B) :
  bind (ret a) f = f a.
Proof. apply bind_lift_ok. Qed.

Lemma bind_emit {B : Type} (c : call) (k : run B) :
  bind (emit c) (fun _ => k) = mkRun (c :: calls k) (outcome k).
Proof. reflexivity. Qed.

Lemma py_truediv_ok (x y : R) : y <> 0 -> py_truediv x y = Ok (x / y).
Proof.
  intros Hy. unfold py_truediv.
  destruct (Req_dec_T y 0) as [E | _]; [contradiction | reflexivity].
Qed.

Lemma py_truediv_zero (x : R) : py_truediv x 0 = Raise ZeroDivisionError.
Proof.
  unfold py_truediv.
  destruct (Req_dec_T 0 0) as [_ | N]; [reflexivity | now elim N].
Qed.

(** ** Slices *)

Section SliceFacts.
Context {A : Type}.
Implicit Types (a : list A) (n i s : Z).

Lemma slice_bound_range n i :
  (0 <= n)%Z -> (0 <= slice_bound n i <= n)%Z.
Proof.
  intros Hn. unfold slice_bound.
  destruct (Z.ltb_spec i 0); lia.
Qed.

Lemma slice_bound_inside n i :
  (0 <= i <= n)%Z -> slice_bound n i = i.
Proof.
  intros Hi. unfold slice_bound.
  destruct (Z.ltb_spec i 0); lia.
Qed.

Lemma slice_bound_above n i :
  (0 <= n <= i)%Z -> slice_bound n i = n.
Proof.
  intros Hi. unfold slice_bound.
  destruct (Z.ltb_spec i 0); lia.
Qed.

Lemma region_cond_firstn s a :
  region_cond s a =
  firstn (Z.to_nat (slice_bound (Z.of_nat (length a)) s)) a.
Proof.
  unfold region_cond, py_slice. simpl skipn.
  now rewrite Z.sub_0_r.
Qed.

Lemma region_k_skipn s a :
  region_k s a =
  skipn (Z.to_nat (slice_bound (Z.of_nat (length a)) s)) a.
Proof.
  unfold region_k, py_slice.
  set (n := Z.of_nat (length a)).
  assert (Hb : (0 <= slice_bound n s <= n)%Z)
    by (apply slice_bound_range; subst n; lia).
  apply firstn_all2. rewrite length_skipn. subst n. lia.
Qed.

(** [a[:s] + a[s:] == a], whatever the integer [s]. *)
Lemma regions_app s a : region_cond s a ++ region_k s a = a.
Proof.
  rewrite region_cond_firstn, region_k_skipn. apply firstn_skipn.
Qed.

Lemma length_region_cond s a :
  length (region_cond s a) =
  Z.to_nat (slice_bound (Z.of_nat (length a)) s).
Proof.
  rewrite region_cond_firstn, length_firstn.
  pose proof (slice_bound_range (Z.of_nat (length a)) s). lia.
Qed.

Lemma length_region_k s a :
  length (region_k s a) =
  (length a - Z.to_nat (slice_bound (Z.of_nat (length a)) s))%nat.
Proof. rewrite region_k_skipn. apply length_skipn. Qed.

Lemma py_slice_inside (lo hi : Z) a :
  (0 <= lo <= hi)%Z -> (hi <= Z.of_nat (length a))%Z ->
  py_slice (Some lo) (Some hi) a =
  firstn (Z.to_nat (hi - lo)) (skipn (Z.to_nat lo) a).
Proof.
  intros H1 H2. unfold py_slice.
  rewrite !slice_bound_inside by lia. reflexivity.
Qed.

Lemma length_py_slice_le lo hi a :
  (length (py_slice lo hi a) <= length a)%nat.
Proof.
  unfold py_slice. rewrite length_firstn, length_skipn. lia.
Qed.
End SliceFacts.

(** Python's slices on small lists: a negative bound counts from the end, a
    bound past the end is clipped, and a reversed range is empty. *)
Example py_slice_negative :
  py_slice (Some (-2)%Z) None [1; 2; 3; 4]%nat = [3; 4]%nat.
Proof. reflexivity. Qed.

Example py_slice_clipped :
  py_slice (Some 1%Z) (Some 8%Z) [1; 2; 3]%nat = [2; 3]%nat.
Proof. reflexivity. Qed.

Example py_slice_reversed :
  py_slice (Some 2%Z) (Some 1%Z) [1; 2; 3]%nat = [].
Proof. reflexivity. Qed.

Example regions_negative_split :
  region_cond (-1) [1; 2; 3]%nat = [1; 2]%nat
  /\ region_k (-1) [1; 2; 3]%nat = [3]%nat.
Proof. split; reflexivity. Qed.

(** ** The waveform extractor *)

Lemma waveform_extractor_ok (df_features : CycleRecord) (sig : list R)
    (fs : R) :
  fs <> 0 ->
  waveform_extractor df_features sig fs =
  ret (extract_cycle df_features sig,
       np_arange0 (length (extract_cycle df_features sig)) (1 / fs)).
Proof.
  intros Hfs. unfold waveform_extractor.
  rewrite !py_truediv_ok by assumption.
  now rewrite !bind_lift_ok.
Qed.

Lemma waveform_extractor_zero (df_features : CycleRecord) (sig : list R) :
  waveform_extractor df_features sig 0 = raise ZeroDivisionError.
Proof.
  unfold waveform_extractor. rewrite !py_truediv_zero. reflexivity.
Qed.

(** C6: for a row with [0 <= start <= end < len(sig)] the extractor returns
    [sig[start:end+1]], the [end - start + 1] samples of [sig] from index
    [start] on; with a non-zero sampling rate the run returns normally, this
    cycle first. *)
Theorem extract_cycle_inside (df_features : CycleRecord) (sig : list R) :
  (0 <= sample_start df_features <= sample_end df_features)%Z ->
  (sample_end df_features < Z.of_nat (length sig))%Z ->
  let start := sample_start df_features in
  let stop := sample_end df_features in
  let sig_cyc := extract_cycle df_features sig in
  sig_cyc = firstn (Z.to_nat (stop - start + 1)) (skipn (Z.to_nat start) sig)
  /\ Z.of_nat (length sig_cyc) = (stop - start + 1)%Z
  /\ (forall i, (i < length sig_cyc)%nat ->
        nth_error sig_cyc i = nth_error sig (Z.to_nat start + i))
  /\ (forall fs, fs <> 0 ->
        exists times_cyc,
          outcome (waveform_extractor df_features sig fs)
          = Ok (sig_cyc, times_cyc)).
Proof.
  intros Hse Hin start stop sig_cyc.
  assert (E : sig_cyc =
              firstn (Z.to_nat (stop - start + 1))
                     (skipn (Z.to_nat start) sig)).
  { subst sig_cyc. unfold extract_cycle. fold start stop.
    rewrite py_slice_inside by (subst start stop; lia).
    f_equal. lia. }
  assert (L : Z.of_nat (length sig_cyc) = (stop - start + 1)%Z).
  { rewrite E, length_firstn, length_skipn. subst start stop. lia. }
  repeat split; trivial.
  - intros i Hi. rewrite E.
    rewrite nth_error_firstn.
    destruct (Nat.ltb_spec i (Z.to_nat (stop - start + 1))) as [_ | Hge];
      [ | lia ].
    apply nth_error_skipn.
  - intros fs Hfs. eexists.
    rewrite waveform_extractor_ok by assumption. reflexivity.
Qed.

Lemma extract_cycle_inside_witness :
  (0 <= 1 <= 2)%Z /\ (2 < Z.of_nat (length [5; 6; 7; 8]))%Z
  /\ extract_cycle (row_of 1 2) [5; 6; 7; 8]
     = firstn (Z.to_nat (2 - 1 + 1)) (skipn (Z.to_nat 1) [5; 6; 7; 8])
  /\ Z.of_nat (length (extract_cycle (row_of 1 2) [5; 6; 7; 8]))
     = (2 - 1 + 1)%Z.
Proof.
  assert (H1 : (0 <= 1 <= 2)%Z) by lia.
  assert (H2 : (2 < Z.of_nat (length [5; 6; 7; 8]))%Z) by (simpl; lia).
  split; [exact H1 | split; [exact H2 | ]].
  pose proof (extract_cycle_inside (row_of 1 2) [5; 6; 7; 8] H1 H2) as T.
  cbv zeta in T. destruct T as (T1 & T2 & _).
  split; [exact T1 | exact T2].
Defined.

(** The extractor at indices outside the waveform: [sig[1:8]] on three
    samples is clipped to the last two, and [sig[2:1]] is empty; both runs
    return normally. *)
Lemma extractor_out_of_bounds_returns :
  outcome (waveform_extractor (row_of 1 7) [1; 2; 3] 1)
  = Ok ([2; 3], np_arange0 2 (1 / 1))
  /\ ~ fails (waveform_extractor (row_of 1 7) [1; 2; 3] 1)
  /\ outcome (waveform_extractor (row_of 2 0) [1; 2; 3] 1)
     = Ok ([], np_arange0 0 (1 / 1))
  /\ ~ fails (waveform_extractor (row_of 2 0) [1; 2; 3] 1).
Proof.
  assert (H1 : (1 : R) <> 0) by lra.
  rewrite !waveform_extractor_ok by assumption.
  assert (E1 : extract_cycle (row_of 1 7) [1; 2; 3] = [2; 3]) by reflexivity.
  assert (E2 : extract_cycle (row_of 2 0) [1; 2; 3] = []) by reflexivity.
  rewrite E1, E2. simpl.
  repeat split; intros [e He]; discriminate He.
Qed.

(** C5, amended: for a row whose indices are int64 numbers with [end + 1]
    an int64 number too (no overflow of the sum), the extractor raises no
    exception on its indices. With a non-zero sampling rate it returns
    normally for every waveform ([ZeroDivisionError] at rate zero is its
    only failure); the cycle is a slice of the waveform, clipped at the
    bounds: empty when [0 <= end < start], and running to the last sample
    when [end] is at or past it. *)
Theorem extractor_clips_indices (df_features : CycleRecord) (sig : list R)
    (fs : R) :
  let start := sample_start df_features in
  let stop := sample_end df_features in
  let sig_cyc := extract_cycle df_features sig in
  int64 start -> int64 stop -> int64 (stop + 1) ->
  (fs <> 0 ->
     exists times_cyc,
       outcome (waveform_extractor df_features sig fs)
       = Ok (sig_cyc, times_cyc))
  /\ (forall e, raises (waveform_extractor df_features sig fs) e ->
        fs = 0 /\ e = ZeroDivisionError)
  /\ (length sig_cyc <= length sig)%nat
  /\ ((0 <= start)%Z -> (Z.of_nat (length sig) <= stop + 1)%Z ->
        sig_cyc = skipn (Z.to_nat start) sig)
  /\ ((0 <= stop < start)%Z -> sig_cyc = []).
Proof.
  intros start stop sig_cyc _ _ _. repeat split.
  - intros Hfs. eexists. now rewrite waveform_extractor_ok.
  - destruct (Req_dec_T fs 0) as [E | N]; [assumption | ].
    rewrite waveform_extractor_ok in H by assumption. discriminate H.
  - destruct (Req_dec_T fs 0) as [E | N].
    + subst fs. rewrite waveform_extractor_zero in H.
      unfold raises in H. simpl in H. congruence.
    + rewrite waveform_extractor_ok in H by assumption. discriminate H.
  - apply length_py_slice_le.
  - intros Hs He. subst sig_cyc. unfold extract_cycle, py_slice.
    fold start stop.
    rewrite (slice_bound_above _ (stop + 1)) by lia.
    rewrite firstn_all2
      by (rewrite length_skipn;
          pose proof (slice_bound_range (Z.of_nat (length sig)) start); lia).
    destruct (Z.le_gt_cases start (Z.of_nat (length sig))) as [Hle | Hgt].
    + now rewrite slice_bound_inside by lia.
    + rewrite slice_bound_above by lia.
      rewrite !skipn_all2 by lia. reflexivity.
  - intros Hs. subst sig_cyc. unfold extract_cycle, py_slice.
    fold start stop.
    set (n := Z.of_nat (length sig)).
    assert (Hle : (slice_bound n (stop + 1) - slice_bound n start <= 0)%Z).
    { unfold slice_bound.
      destruct (Z.ltb_spec (stop + 1) 0), (Z.ltb_spec start 0); lia. }
    replace (Z.to_nat (slice_bound n (stop + 1) - slice_bound n start))
      with 0%nat by lia.
    reflexivity.
Qed.

Lemma extractor_clips_indices_witness :
  int64 2 /\ int64 0 /\ int64 (0 + 1) /\ (0 <= 0 < 2)%Z
  /\ extract_cycle (row_of 2 0) [1; 2; 3] = [].
Proof.
  assert (B1 : int64 2) by (unfold int64; lia).
  assert (B2 : int64 0) by (unfold int64; lia).
  assert (B3 : int64 (0 + 1)) by (unfold int64; lia).
  assert (H2 : (0 <= 0 < 2)%Z) by lia.
  pose proof (extractor_clips_indices (row_of 2 0) [1; 2; 3] 1 B1 B2 B3) as T.
  destruct T as (_ & _ & _ & _ & T5).
  split; [exact B1 | split; [exact B2 | split; [exact B3 | split]]].
  - exact H2.
  - exact (T5 H2).
Defined.

(** ** The residual decomposer *)

(** C2: for a residual of length [L] and a split index [s] in [[0, L]], the
    conductive region is the first [s] samples and the potassium region the
    rest: their lengths add up to [L] and their concatenation is the
    residual. *)
Theorem regions_partition_residual (residual : list R) (s : Z) :
  (0 <= s <= Z.of_nat (length residual))%Z ->
  region_cond s residual = firstn (Z.to_nat s) residual
  /\ region_k s residual = skipn (Z.to_nat s) residual
  /\ (length (region_cond s residual) + length (region_k s residual)
      = length residual)%nat
  /\ region_cond s residual ++ region_k s residual = residual.
Proof.
  intros Hs.
  rewrite region_cond_firstn, region_k_skipn.
  rewrite slice_bound_inside by assumption.
  repeat split.
  - rewrite length_firstn, length_skipn. lia.
  - apply firstn_skipn.
Qed.

Lemma regions_partition_residual_witness :
  (0 <= 1 <= Z.of_nat (length [4; 5; 6]))%Z
  /\ region_cond 1 [4; 5; 6] ++ region_k 1 [4; 5; 6] = [4; 5; 6].
Proof.
  assert (H : (0 <= 1 <= Z.of_nat (length [4; 5; 6]))%Z) by (simpl; lia).
  split; [exact H | ].
  exact (proj2 (proj2 (proj2 (regions_partition_residual [4; 5; 6] 1 H)))).
Defined.

(** ** Labels *)

(** C9: [_infer_labels] has a branch for 'trough' and one for 'peak', and
    raises [UnboundLocalError] on every other value. *)
Theorem infer_labels_cases :
  _infer_labels "trough"
  = Ok (["Trough"; "Peak"; "Inflection"]%string,
        ["sample_trough"; "sample_next_peak"; "sample_end"]%string)
  /\ _infer_labels "peak"
     = Ok (["Peak"; "Trough"; "Inflection"]%string,
           ["sample_peak"; "sample_next_trough"; "sample_end"]%string)
  /\ forall center_e : string,
       center_e <> "trough"%string -> center_e <> "peak"%string ->
       _infer_labels center_e = Raise UnboundLocalError.
Proof.
  split; [reflexivity | split; [reflexivity | ]].
  intros center_e Ht Hp. unfold _infer_labels.
  apply String.eqb_neq in Ht. apply String.eqb_neq in Hp.
  now rewrite Ht, Hp.
Qed.

Lemma infer_labels_cases_witness :
  "burst"%string <> "trough"%string /\ "burst"%string <> "peak"%string
  /\ _infer_labels "burst" = Raise UnboundLocalError.
Proof.
  assert (Ht : "burst"%string <> "trough"%string) by discriminate.
  assert (Hp : "burst"%string <> "peak"%string) by discriminate.
  split; [exact Ht | split; [exact Hp | ]].
  exact (proj2 (proj2 infer_labels_cases) "burst"%string Ht Hp).
Defined.

(** ** The split index *)

Lemma Int_part_bounds (x : R) : IZR (Int_part x) <= x < IZR (Int_part x) + 1.
Proof. destruct (base_Int_part x). lra. Qed.

Lemma Int_part_unique (x : R) (z : Z) :
  IZR z <= x < IZR z + 1 -> Int_part x = z.
Proof.
  intros H. symmetry. apply Int_part_spec. lra.
Qed.

Lemma py_int_nonneg (x : R) (z : Z) :
  0 <= x -> IZR z <= x < IZR z + 1 -> py_int x = z.
Proof.
  intros Hx Hz. unfold py_int.
  destruct (Rle_dec 0 x) as [_ | N]; [ | contradiction].
  now apply Int_part_unique.
Qed.

Lemma py_int_bounds_nonneg (x : R) :
  0 <= x -> IZR (py_int x) <= x < IZR (py_int x) + 1.
Proof.
  intros Hx. unfold py_int.
  destruct (Rle_dec 0 x) as [_ | N]; [ | contradiction].
  apply Int_part_bounds.
Qed.

Lemma py_int_bounds_nonpos (x : R) :
  x <= 0 -> x <= IZR (py_int x) < x + 1.
Proof.
  intros Hx. unfold py_int.
  destruct (Rle_dec 0 x) as [H0 | N].
  - assert (E : x = 0) by lra. subst x.
    rewrite (Int_part_unique 0 0) by lra. lra.
  - rewrite opp_IZR. pose proof (Int_part_bounds (- x)). lra.
Qed.

Example py_int_negative : py_int (- (15 / 4)) = (-3)%Z.
Proof.
  unfold py_int.
  destruct (Rle_dec 0 (- (15 / 4))) as [H | _]; [lra | ].
  replace (- - (15 / 4)) with (15 / 4) by lra.
  rewrite (Int_part_unique (15 / 4) 3) by lra. reflexivity.
Qed.

(** Where the product is a float64 number the rounding leaves it as it is,
    and the split index is the truncation of the exact product. *)
Lemma split_index_exact_product (rnd : rounding) (df_features : CycleRecord)
    (L : nat) :
  rnd (Na_center df_features * INR L) = Na_center df_features * INR L ->
  split_index rnd df_features L = py_int (Na_center df_features * INR L).
Proof. intros E. unfold split_index. now rewrite E. Qed.

(** The float64 number nearest to 0.3 is just below 3/10. On ten samples
    the exact product is just below 3 and would be truncated to 2; the
    float64 product is 3, and the code splits at 3. *)
Example split_index_rounded_product (rnd : rounding) :
  let center := 5404319552844595 / 18014398509481984 in
  rnd (center * INR 10) = 3 ->
  split_index rnd (row_with_center center) 10 = 3%Z
  /\ py_int (center * INR 10) = 2%Z.
Proof.
  intros center E. split.
  - unfold split_index. simpl Na_center. fold center. rewrite E.
    apply py_int_nonneg; lra.
  - apply py_int_nonneg; subst center; simpl; lra.
Qed.

(** With a centre of 0.75 on a cycle of 5 samples the product is 3.75: the
    code splits at 3, rounding to the nearest gives 4. With a centre of 2
    the code splits at 10, outside [[0, 5]]. The centres, the length and the
    two products are float64 numbers, so the products are exact. *)
Lemma split_index_not_rounded :
  split_index exact_rounding (row_with_center (3 / 4)) 5 = 3%Z
  /\ spec_split_index (3 / 4) 5 = 4%Z
  /\ split_index exact_rounding (row_with_center (3 / 4)) 5
     <> spec_split_index (3 / 4) 5
  /\ split_index exact_rounding (row_with_center 2) 5 = 10%Z.
Proof.
  assert (E : 3 / 4 * INR 5 = 15 / 4) by (simpl; lra).
  assert (I : Int_part (15 / 4) = 3%Z)
    by (apply Int_part_unique; lra).
  assert (S1 : split_index exact_rounding (row_with_center (3 / 4)) 5 = 3%Z).
  { unfold split_index, exact_rounding. simpl Na_center. rewrite E.
    apply py_int_nonneg; lra. }
  assert (S2 : spec_split_index (3 / 4) 5 = 4%Z).
  { unfold spec_split_index, round_half_even. rewrite E, I.
    destruct (Rlt_dec (15 / 4 - 3) (1 / 2)) as [H | _]; [lra | ].
    destruct (Rlt_dec (1 / 2) (15 / 4 - 3)) as [_ | H]; [ | lra].
    reflexivity. }
  repeat split; trivial.
  - rewrite S1, S2. discriminate.
  - unfold split_index, exact_rounding. simpl Na_center.
    replace (2 * INR 5) with 10 by (simpl; lra).
    apply py_int_nonneg; lra.
Qed.

(** C1, amended: the split index is [int(Na_center * L)], the float64
    product [p] truncated towards zero, with no rounding to the nearest
    integer and no clamping; where the exact product is a float64 number the
    index is its truncation. For a centre fraction in [[0, 1]] the index
    lies in [[0, L]]: rounding is monotone and leaves 0 and [L], float64
    numbers, as they are. *)
Theorem split_index_truncates (rnd : rounding) (df_features : CycleRecord)
    (L : nat) :
  let x := Na_center df_features * INR L in
  let p := rnd x in
  let s := split_index rnd df_features L in
  (0 <= p -> IZR s <= p < IZR s + 1)
  /\ (p <= 0 -> p <= IZR s < p + 1)
  /\ (p = x -> 0 <= x -> IZR s <= x < IZR s + 1)
  /\ (rounding_monotone rnd -> rnd 0 = 0 -> rnd (INR L) = INR L ->
      0 <= Na_center df_features <= 1 -> (0 <= s <= Z.of_nat L)%Z).
Proof.
  intros x p s. subst s. unfold split_index. fold x. fold p.
  split; [apply py_int_bounds_nonneg | ].
  split; [apply py_int_bounds_nonpos | ].
  split.
  { intros E Hx. rewrite E. now apply py_int_bounds_nonneg. }
  intros Hmono H0 HL' Hc.
  assert (HL : 0 <= INR L) by apply pos_INR.
  assert (Hx : 0 <= x <= INR L) by (subst x; split; nra).
  assert (Hp : 0 <= p <= INR L).
  { subst p. split.
    - rewrite <- H0. apply Hmono. apply Hx.
    - rewrite <- HL'. apply Hmono. apply Hx. }
  pose proof (py_int_bounds_nonneg p (proj1 Hp)) as Hb.
  split.
  - apply Z.lt_succ_r, lt_IZR. rewrite succ_IZR. simpl. lra.
  - apply le_IZR. rewrite <- INR_IZR_INZ. lra.
Qed.

Lemma split_index_truncates_witness :
  rounding_monotone exact_rounding
  /\ exact_rounding 0 = 0
  /\ exact_rounding (INR 5) = INR 5
  /\ 0 <= 3 / 4 <= 1
  /\ (0 <= split_index exact_rounding (row_with_center (3 / 4)) 5
      <= Z.of_nat 5)%Z.
Proof.
  assert (M : rounding_monotone exact_rounding)
    by (intros x y Hxy; exact Hxy).
  assert (H0 : exact_rounding 0 = 0) by reflexivity.
  assert (HL : exact_rounding (INR 5) = INR 5) by reflexivity.
  assert (H : 0 <= 3 / 4 <= 1) by lra.
  split; [exact M | split; [exact H0 | split; [exact HL | ]]].
  split; [exact H | ].
  exact (proj2 (proj2 (proj2
           (split_index_truncates exact_rounding
              (row_with_center (3 / 4)) 5))) M H0 HL H).
Defined.

(** ** The region normalizer *)

Lemma normalize_regions_returns (rem_sig_k rem_sig_cond : list R) :
  normalize_regions rem_sig_k rem_sig_cond
  = ret (zscore rem_sig_k, zscore rem_sig_cond).
Proof. reflexivity. Qed.

Lemma length_zscore (a : list R) : length (zscore a) = length a.
Proof. apply length_map. Qed.

Lemma np_true_divide_zero_zero : np_true_divide 0 0 = NaN.
Proof.
  unfold np_true_divide.
  destruct (Req_dec_T 0 0) as [_ | N]; [reflexivity | now elim N].
Qed.


Lemma np_sum_constant (c : R) (a : list R) :
  Forall (fun x => x = c) a -> np_sum a = INR (length a) * c.
Proof.
  induction 1 as [ | x a Hx _ IH].
  - simpl. lra.
  - cbn [np_sum length]. rewrite S_INR, IH, Hx. lra.
Qed.

Lemma INR_length_nonzero {A : Type} (a : list A) :
  a <> [] -> INR (length a) <> 0.
Proof.
  intros Hne. apply not_0_INR. destruct a; [contradiction | discriminate].
Qed.

Lemma np_mean_constant (c : R) (a : list R) :
  a <> [] -> Forall (fun x => x = c) a -> np_mean a = c.
Proof.
  intros Hne Hc. unfold np_mean. rewrite (np_sum_constant c) by exact Hc.
  field. now apply INR_length_nonzero.
Qed.

Lemma np_std_constant (c : R) (a : list R) :
  a <> [] -> Forall (fun x => x = c) a -> np_std a = 0.
Proof.
  intros Hne Hc. unfold np_std.
  rewrite (np_mean_constant c a) by assumption.
  rewrite (np_mean_constant 0).
  - apply sqrt_0.
  - destruct a; [contradiction | discriminate].
  - apply Forall_map. revert Hc. apply Forall_impl.
    intros x ->. lra.
Qed.

(** The z-scores of a constant array are all [0 / 0]. *)
Lemma zscore_constant (c : R) (a : list R) :
  Forall (fun x => x = c) a -> zscore a = repeat NaN (length a).
Proof.
  intros Hc. destruct a as [ | x0 a0] eqn:Ea; [reflexivity | ].
  rewrite <- Ea in *.
  assert (Hne : a <> []) by (rewrite Ea; discriminate).
  unfold zscore.
  rewrite (np_mean_constant c a), (np_std_constant c a) by assumption.
  clear Ea Hne. induction Hc as [ | x a Hx _ IH]; [reflexivity | ].
  cbn [map length repeat]. rewrite IH. f_equal.
  subst x. replace (c - c) with 0 by lra. apply np_true_divide_zero_zero.
Qed.

Lemma zscore_nil : zscore [] = [].
Proof. reflexivity. Qed.

Lemma region_cond_zero {A : Type} (a : list A) : region_cond 0 a = [].
Proof.
  rewrite region_cond_firstn, slice_bound_inside by lia. reflexivity.
Qed.

Lemma region_k_zero {A : Type} (a : list A) : region_k 0 a = a.
Proof.
  rewrite region_k_skipn, slice_bound_inside by lia. reflexivity.
Qed.

Lemma region_cond_full {A : Type} (a : list A) :
  region_cond (Z.of_nat (length a)) a = a.
Proof.
  rewrite region_cond_firstn, slice_bound_inside by lia.
  rewrite Nat2Z.id. apply firstn_all.
Qed.

Lemma region_k_full {A : Type} (a : list A) :
  region_k (Z.of_nat (length a)) a = [].
Proof.
  rewrite region_k_skipn, slice_bound_inside by lia.
  rewrite Nat2Z.id. apply skipn_all.
Qed.

(** A constant region of five zeros: the normalizer returns five NaN and
    raises nothing. *)
Lemma normalizer_constant_returns_nan :
  outcome (normalize_regions [2; 3; 4] [0; 0; 0; 0; 0])
  = Ok (zscore [2; 3; 4], [NaN; NaN; NaN; NaN; NaN])
  /\ ~ fails (normalize_regions [2; 3; 4] [0; 0; 0; 0; 0]).
Proof.
  rewrite normalize_regions_returns.
  rewrite (zscore_constant 0 [0; 0; 0; 0; 0])
    by (repeat constructor).
  split; [reflexivity | ].
  intros [e He]. discriminate He.
Qed.

(** C3, amended: on a region whose samples are all equal the normalizer
    raises no exception; it returns an array of the region's length whose
    every entry is NaN. *)
Theorem normalizer_constant_region (c : R) (region other : list R) :
  Forall (fun x => x = c) region ->
  zscore region = repeat NaN (length region)
  /\ outcome (normalize_regions other region)
     = Ok (zscore other, repeat NaN (length region))
  /\ outcome (normalize_regions region other)
     = Ok (repeat NaN (length region), zscore other)
  /\ ~ fails (normalize_regions other region)
  /\ ~ fails (normalize_regions region other).
Proof.
  intros Hc. pose proof (zscore_constant c region Hc) as Hz.
  rewrite !normalize_regions_returns. simpl outcome. rewrite Hz.
  repeat split; trivial; intros [e He]; discriminate He.
Qed.

Lemma normalizer_constant_region_witness :
  Forall (fun x => x = 0) [0; 0; 0; 0; 0]
  /\ zscore [0; 0; 0; 0; 0] = repeat NaN 5.
Proof.
  assert (H : Forall (fun x => x = 0) [0; 0; 0; 0; 0])
    by (repeat constructor).
  split; [exact H | ].
  exact (proj1 (normalizer_constant_region 0 [0; 0; 0; 0; 0] [] H)).
Defined.

(** Splitting three samples at 0 and at 3: the empty region is normalized to
    an empty array, and the run returns normally. *)
Lemma normalizer_empty_region_returns :
  region_cond 0 [1; 2; 3] = []
  /\ outcome (normalize_regions (region_k 0 [1; 2; 3])
                                (region_cond 0 [1; 2; 3]))
     = Ok (zscore [1; 2; 3], [])
  /\ ~ fails (normalize_regions (region_k 0 [1; 2; 3])
                                (region_cond 0 [1; 2; 3]))
  /\ region_k 3 [1; 2; 3] = []
  /\ outcome (normalize_regions (region_k 3 [1; 2; 3])
                                (region_cond 3 [1; 2; 3]))
     = Ok ([], zscore [1; 2; 3])
  /\ ~ fails (normalize_regions (region_k 3 [1; 2; 3])
                                (region_cond 3 [1; 2; 3])).
Proof.
  assert (C0 : region_cond 0 [1; 2; 3] = []) by reflexivity.
  assert (K0 : region_k 0 [1; 2; 3] = [1; 2; 3]) by reflexivity.
  assert (C3 : region_cond 3 [1; 2; 3] = [1; 2; 3]) by reflexivity.
  assert (K3 : region_k 3 [1; 2; 3] = []) by reflexivity.
  rewrite C0, K0, C3, K3, !normalize_regions_returns. simpl outcome.
  rewrite zscore_nil.
  repeat split; intros [e He]; discriminate He.
Qed.

(** C4, amended: when the split index is 0 the conductive region is empty,
    when it is [L] the potassium region is; the normalizer raises no
    exception on an empty region and returns an empty array for it. *)
Theorem normalizer_empty_region (residual : list R) (s : Z) :
  s = 0%Z \/ s = Z.of_nat (length residual) ->
  exists z_score_k z_score_cond,
    outcome (normalize_regions (region_k s residual)
                               (region_cond s residual))
    = Ok (z_score_k, z_score_cond)
    /\ ((s = 0%Z /\ region_cond s residual = []
         /\ z_score_cond = [] /\ z_score_k = zscore residual)
        \/ (s = Z.of_nat (length residual) /\ region_k s residual = []
            /\ z_score_k = [] /\ z_score_cond = zscore residual)).
Proof.
  intros Hs. rewrite normalize_regions_returns. simpl outcome.
  eexists _, _. split; [reflexivity | ].
  destruct Hs as [-> | ->]; [left | right].
  - now rewrite region_cond_zero, region_k_zero.
  - now rewrite region_cond_full, region_k_full.
Qed.

Lemma normalizer_empty_region_witness :
  (0%Z = 0%Z \/ 0%Z = Z.of_nat (length [1; 2; 3]))
  /\ exists z_score_k z_score_cond,
       outcome (normalize_regions (region_k 0 [1; 2; 3])
                                  (region_cond 0 [1; 2; 3]))
       = Ok (z_score_k, z_score_cond)
       /\ ((0%Z = 0%Z /\ region_cond 0 [1; 2; 3] = []
            /\ z_score_cond = [] /\ z_score_k = zscore [1; 2; 3])
           \/ (0%Z = Z.of_nat (length [1; 2; 3]) /\ region_k 0 [1; 2; 3] = []
               /\ z_score_k = [] /\ z_score_cond = zscore [1; 2; 3])).
Proof.
  assert (H : 0%Z = 0%Z \/ 0%Z = Z.of_nat (length [1; 2; 3]))
    by (left; reflexivity).
  split; [exact H | ].
  exact (normalizer_empty_region [1; 2; 3] 0 H).
Defined.

(** *** Non-degenerate regions *)










(** ** The fits of the regions *)

Lemma plot_xy_ok (x y : list R) :
  length x = length y -> plot_xy x y = emit (plt_plot_xy x y).
Proof.
  intros H. unfold plot_xy. rewrite H, Nat.eqb_refl. reflexivity.
Qed.

Lemma plot_xz_ok (x : list R) (z : list npfloat) :
  length x = length z -> plot_xz x z = emit (plt_plot_xz x z).
Proof.
  intros H. unfold plot_xz. rewrite H, Nat.eqb_refl. reflexivity.
Qed.

Lemma length_scale (fs : R) (times : list R) :
  length (scale fs times) = length times.
Proof. apply length_map. Qed.

Lemma length_np_arange0 (n : nat) (step : R) :
  length (np_arange0 n step) = n.
Proof. unfold np_arange0. now rewrite length_map, length_seq. Qed.

Lemma length_zip_minus (a b : list R) :
  length a = length b -> length (zip_minus a b) = length a.
Proof.
  revert b. induction a as [ | x a IH]; intros [ | y b] H;
    simpl in *; try discriminate; auto.
Qed.

Lemma np_subtract_same_length (a b : list R) :
  length a = length b -> np_subtract a b = Ok (zip_minus a b).
Proof.
  intros H. unfold np_subtract. rewrite H, Nat.eqb_refl. reflexivity.
Qed.

(** The lengths of the regions depend on the length of the array only. *)
Lemma length_region_k_eq {A B : Type} (s : Z) (a : list A) (b : list B) :
  length a = length b -> length (region_k s a) = length (region_k s b).
Proof. intros H. rewrite !length_region_k, H. reflexivity. Qed.

Lemma length_region_cond_eq {A B : Type} (s : Z) (a : list A) (b : list B) :
  length a = length b -> length (region_cond s a) = length (region_cond s b).
Proof. intros H. rewrite !length_region_cond, H. reflexivity. Qed.


Section PipelineFacts.
Variable rnd : rounding.
Variable sim : R -> R -> R -> R -> R -> R -> list R.


Lemma bind_simulate {B : Type} (n_seconds fs center std alpha height : R)
    (k : list R -> run B) :
  bind (simulate sim n_seconds fs center std alpha height) k
  = mkRun (sim_call n_seconds fs center std alpha height
             :: calls (k (sim n_seconds fs center std alpha height)))
          (outcome (k (sim n_seconds fs center std alpha height))).
Proof. reflexivity. Qed.

Lemma bind_plot_sing_gaus {B : Type} (gaus sig : list R)
    (current_type : string) (k : run B) :
  bind (plot_sing_gaus gaus sig current_type) (fun _ => k)
  = mkRun (calls (plot_sing_gaus gaus sig current_type) ++ calls k)
          (outcome k).
Proof. reflexivity. Qed.

(** The run up to the fits of the regions, with the time axis of
    [np_arange0], one entry per sample of the cycle. *)
Lemma plot_gaussian_fit_reaches_fit (df_features : CycleRecord)
    (sig : list R) (fs z_thresh_cond z_thresh_k : R) :
  let sig_cyc := extract_cycle df_features sig in
  let cyc_len := length sig_cyc in
  let na_gaus := sim (INR cyc_len / fs) fs (Na_center df_features)
                     (Na_std df_features) (Na_alpha df_features)
                     (Na_height df_features) in
  let na_center := split_index rnd df_features cyc_len in
  let rem_sig := zip_minus sig_cyc na_gaus in
  let times_cyc := np_arange0 cyc_len (1 / fs) in
  let fit := fit_regions sim df_features fs sig_cyc na_gaus
               (region_cond na_center rem_sig) (region_k na_center rem_sig)
               (region_cond na_center times_cyc)
               (region_k na_center times_cyc) in
  fs <> 0 ->
  length na_gaus = cyc_len ->
  plot_gaussian_fit rnd sim df_features sig fs z_thresh_cond z_thresh_k
  = mkRun
      (sim_call (INR cyc_len / fs) fs (Na_center df_features)
                (Na_std df_features) (Na_alpha df_features)
                (Na_height df_features)
         :: calls_before_fit fs z_thresh_cond z_thresh_k na_center
              sig_cyc na_gaus
              (region_k na_center rem_sig) (region_cond na_center rem_sig)
              (region_k na_center times_cyc) (region_cond na_center times_cyc)
            ++ calls fit)
      (outcome fit).
Proof.
  intros sig_cyc cyc_len na_gaus na_center rem_sig times_cyc fit Hfs Hlen.
  assert (Lr : length rem_sig = cyc_len).
  { subst rem_sig. rewrite length_zip_minus; [reflexivity | ].
    now rewrite Hlen. }
  assert (Lt : length times_cyc = cyc_len)
    by apply length_np_arange0.
  assert (Lk : length (region_k na_center times_cyc)
               = length (region_k na_center rem_sig))
    by (apply length_region_k_eq; congruence).
  assert (Lc : length (region_cond na_center times_cyc)
               = length (region_cond na_center rem_sig))
    by (apply length_region_cond_eq; congruence).
  unfold plot_gaussian_fit.
  rewrite waveform_extractor_ok by assumption. rewrite bind_ret.
  cbn [fst snd]. fold sig_cyc cyc_len times_cyc.
  rewrite py_truediv_ok by assumption. rewrite bind_lift_ok.
  rewrite bind_simulate. fold na_gaus.
  rewrite bind_plot_sing_gaus.
  unfold residual_decomposer.
  rewrite np_subtract_same_length by (now rewrite Hlen).
  fold rem_sig. rewrite bind_lift_ok, bind_ret.
  fold na_center.
  rewrite !plot_xy_ok by (rewrite length_scale; assumption).
  rewrite normalize_regions_returns, bind_ret. cbn [fst snd].
  rewrite !plot_xz_ok by (rewrite length_scale, length_zscore; assumption).
  rewrite !plot_xy_ok by (now rewrite length_scale, repeat_length).
  fold fit. reflexivity.
Qed.

(** The fits block when the synthesizer returns arrays of the lengths of
    the regions. *)
Lemma fit_regions_ok (df_features : CycleRecord) (fs : R)
    (sig_cyc na_gaus rem_sig_cond rem_sig_k times_cond times_k : list R) :
  let cond_gaus := sim (INR (length rem_sig_cond) / fs) fs
                       (Cond_center df_features) (Cond_std df_features)
                       (Cond_alpha df_features) (Cond_height df_features) in
  let k_gaus := sim (INR (length rem_sig_k) / fs) fs
                    (K_center df_features) (K_std df_features)
                    (K_alpha df_features) (K_height df_features) in
  fs <> 0 ->
  length times_cond = length cond_gaus ->
  length times_k = length k_gaus ->
  fit_regions sim df_features fs sig_cyc na_gaus
              rem_sig_cond rem_sig_k times_cond times_k
  = mkRun
      ([sim_call (INR (length rem_sig_cond) / fs) fs
                 (Cond_center df_features) (Cond_std df_features)
                 (Cond_alpha df_features) (Cond_height df_features);
        sim_call (INR (length rem_sig_k) / fs) fs
                 (K_center df_features) (K_std df_features)
                 (K_alpha df_features) (K_height df_features)]
       ++ calls (plot_sing_gaus cond_gaus rem_sig_cond "Conductive")
       ++ calls (plot_sing_gaus k_gaus rem_sig_k "K")
       ++ [plt_plot_y sig_cyc; plt_plot_y na_gaus;
           plt_plot_xy (scale fs times_k) k_gaus;
           plt_plot_xy (scale fs times_cond) cond_gaus;
           plt_ylabel "Voltage (uV)"; plt_title "All gaussian fits found";
           plt_show])
      (Ok tt).
Proof.
  intros cond_gaus k_gaus Hfs Hc Hk. unfold fit_regions.
  rewrite !py_truediv_ok by assumption. rewrite !bind_lift_ok.
  rewrite bind_simulate. fold cond_gaus.
  rewrite bind_simulate. fold k_gaus.
  rewrite !plot_xy_ok by (rewrite length_scale; assumption).
  reflexivity.
Qed.
End PipelineFacts.


(** *** The end-to-end scenario *)

Lemma scenario_sim_primary (fs c s a h : R) :
  scenario_sim (INR 10 / 10) fs c s a h = scenario_primary.
Proof.
  unfold scenario_sim.
  destruct (Req_dec_T (INR 10 / 10) 1) as [_ | N]; [reflexivity | ].
  exfalso. apply N. simpl. lra.
Qed.

Lemma scenario_sim_cond (fs c s a h : R) :
  scenario_sim (INR 3 / 10) fs c s a h = repeat 0 3.
Proof.
  unfold scenario_sim.
  destruct (Req_dec_T (INR 3 / 10) 1) as [E | _]; [simpl in E; lra | ].
  destruct (Req_dec_T (INR 3 / 10) (3 / 10)) as [_ | N]; [reflexivity | ].
  exfalso. apply N. simpl. lra.
Qed.

Lemma scenario_sim_k (fs c s a h : R) :
  scenario_sim (INR 7 / 10) fs c s a h = repeat 0 7.
Proof.
  unfold scenario_sim.
  destruct (Req_dec_T (INR 7 / 10) 1) as [E | _]; [simpl in E; lra | ].
  destruct (Req_dec_T (INR 7 / 10) (3 / 10)) as [E | _];
    [simpl in E; lra | reflexivity].
Qed.

Lemma scenario_split_index (rnd : rounding) :
  rnd 3 = 3 -> split_index rnd scenario_row 10 = 3%Z.
Proof.
  intros E. unfold split_index. simpl Na_center.
  replace (3 / 10 * INR 10) with 3 by (simpl; lra).
  rewrite E. apply py_int_nonneg; lra.
Qed.

(** On the scenario, with the centre taken as the real 3/10 and a float64
    product of 3, the run splits at 3, the conductive region of the residual
    is three zeros, its z-scores are three NaN, and the run draws them and
    goes on to its normal end. *)
Example scenario_run (rnd : rounding) (z_thresh_cond z_thresh_k : R) :
  rnd 3 = 3 ->
  let r := plot_gaussian_fit rnd scenario_sim scenario_row scenario_sig 10
                             z_thresh_cond z_thresh_k in
  outcome r = Ok tt
  /\ In (plt_axvline 3) (calls r)
  /\ In (plt_plot_xz (scale 10 (region_cond 3 (np_arange0 10 (1 / 10))))
                     [NaN; NaN; NaN])
        (calls r).
Proof.
  intros E3 r.
  assert (Hfs : (10 : R) <> 0) by lra.
  assert (Ec : extract_cycle scenario_row scenario_sig = scenario_sig)
    by reflexivity.
  pose proof (plot_gaussian_fit_reaches_fit rnd scenario_sim scenario_row
                scenario_sig 10 z_thresh_cond z_thresh_k) as Hrun.
  cbv zeta in Hrun. rewrite Ec in Hrun.
  change (length scenario_sig) with 10%nat in Hrun.
  rewrite scenario_sim_primary, (scenario_split_index rnd E3) in Hrun.
  specialize (Hrun Hfs eq_refl). fold r in Hrun.
  set (rem_sig := zip_minus scenario_sig scenario_primary) in Hrun.
  assert (Rc : region_cond 3 rem_sig = [0 - 0; 1 - 1; 2 - 2])
    by reflexivity.
  assert (Rk : length (region_k 3 rem_sig) = 7%nat) by reflexivity.
  assert (Zc : zscore (region_cond 3 rem_sig) = [NaN; NaN; NaN]).
  { rewrite Rc. apply (zscore_constant 0).
    repeat constructor; lra. }
  assert (Lc : length (region_cond 3 (np_arange0 10 (1 / 10))) = 3%nat)
    by reflexivity.
  assert (Lk : length (region_k 3 (np_arange0 10 (1 / 10))) = 7%nat)
    by reflexivity.
  rewrite fit_regions_ok in Hrun.
  - rewrite Hrun. cbn [calls outcome]. split; [reflexivity | ].
    unfold calls_before_fit. rewrite Zc. split.
    + right. do 8 right. left. reflexivity.
    + right. do 14 right. left. reflexivity.
  - exact Hfs.
  - rewrite Rc. cbn [length]. rewrite scenario_sim_cond. exact Lc.
  - rewrite Rk, scenario_sim_k. exact Lk.
Qed.

(** ** Aligned spikes *)

Lemma np_argmin_ok (a : list R) :
  a <> [] -> np_argmin a = Ok (argmin_index a).
Proof. destruct a; [contradiction | reflexivity]. Qed.

Lemma argmin_from_spec (a : list R) :
  forall best besti i,
    let j := argmin_from best besti i a in
    (j = besti /\ Forall (Rle best) a)
    \/ ((i <= j < i + length a)%nat
        /\ exists m, nth_error a (j - i) = Some m
                     /\ m < best /\ Forall (Rle m) a).
Proof.
  induction a as [ | x t IH]; intros best besti i; cbn [argmin_from].
  - left. split; [reflexivity | constructor].
  - destruct (Rlt_dec x best) as [Hlt | Hge].
    + right.
      destruct (IH x i (S i)) as [[Ej Hall] | [Hj (m & Hm & Hmx & Hall)]].
      * rewrite Ej. cbn [length]. split; [lia | ].
        exists x. rewrite Nat.sub_diag. repeat split; trivial.
        constructor; [lra | exact Hall].
      * cbn [length]. split; [lia | ].
        exists m.
        replace (argmin_from x i (S i) t - i)%nat
          with (S (argmin_from x i (S i) t - S i)) by lia.
        repeat split; trivial; [lra | ].
        constructor; [lra | exact Hall].
    + destruct (IH best besti (S i))
        as [[Ej Hall] | [Hj (m & Hm & Hmb & Hall)]].
      * left. split; [exact Ej | ]. constructor; [lra | exact Hall].
      * right. cbn [length]. split; [lia | ].
        exists m.
        replace (argmin_from best besti (S i) t - i)%nat
          with (S (argmin_from best besti (S i) t - S i)) by lia.
        repeat split; trivial.
        constructor; [lra | exact Hall].
Qed.

(** [argmin_index] points at a least element of the array. *)
Lemma argmin_index_minimum (a : list R) :
  a <> [] ->
  (argmin_index a < length a)%nat
  /\ exists m, nth_error a (argmin_index a) = Some m /\ Forall (Rle m) a.
Proof.
  destruct a as [ | x t]; [contradiction | intros _].
  unfold argmin_index.
  destruct (argmin_from_spec t x 0%nat 1%nat)
    as [[Ej Hall] | [Hj (m & Hm & Hmx & Hall)]].
  - rewrite Ej. cbn [length]. split; [lia | ].
    exists x. split; [reflexivity | ]. constructor; [lra | exact Hall].
  - cbn [length]. split; [lia | ].
    exists m.
    replace (argmin_from x 0 1 t) with (S (argmin_from x 0 1 t - 1)) by lia.
    split; [exact Hm | ]. constructor; [lra | exact Hall].
Qed.

Lemma comprehension_shifted (fs shift : R) (times : list nat) :
  fs <> 0 ->
  comprehension (fun x => match py_truediv (INR x) fs with
                          | Ok t => Ok (t - shift)
                          | Raise e => Raise e
                          end) times
  = Ok (map (fun x => INR x / fs - shift) times).
Proof.
  intros Hfs. induction times as [ | x t IH]; [reflexivity | ].
  cbn [comprehension map]. rewrite py_truediv_ok by assumption.
  now rewrite IH.
Qed.

Lemma length_aligned_times (fs align_point : R) (spike : list R) :
  length (aligned_times fs align_point spike) = length spike.
Proof. unfold aligned_times. now rewrite length_map, length_seq. Qed.

Lemma plot_aligned_ok (fs align_point : R) (spikes : list (list R)) :
  fs <> 0 -> Forall (fun spike => spike <> []) spikes ->
  plot_aligned fs align_point spikes
  = mkRun (flat_map (aligned_calls fs align_point) spikes) (Ok tt).
Proof.
  intros Hfs Hne. induction Hne as [ | spike rest Hs _ IH]; [reflexivity | ].
  cbn [plot_aligned flat_map].
  rewrite np_argmin_ok by assumption. rewrite bind_lift_ok.
  rewrite comprehension_shifted by assumption. rewrite bind_lift_ok.
  fold (aligned_times fs align_point spike).
  rewrite plot_xy_ok by apply length_aligned_times.
  rewrite IH. reflexivity.
Qed.

(** The aligned time of the minimum of a spike. *)
Lemma aligned_time_of_minimum (fs : R) (am0 : nat) (spike : list R) :
  fs <> 0 -> spike <> [] ->
  nth_error (aligned_times fs (INR am0 / fs) spike) (argmin_index spike)
  = Some ((INR am0 + 1) / fs).
Proof.
  intros Hfs Hne. destruct (argmin_index_minimum spike Hne) as [Hlt _].
  unfold aligned_times. rewrite nth_error_map, nth_error_seq.
  destruct (Nat.ltb_spec (argmin_index spike) (length spike)) as [_ | Hge];
    [ | lia].
  cbn [option_map]. f_equal.
  change (1 + argmin_index spike)%nat with (S (argmin_index spike)).
  rewrite S_INR. field. exact Hfs.
Qed.

Lemma py_getitem_first {A : Type} (x : A) (l : list A) :
  py_getitem (x :: l) 0 = Ok x.
Proof.
  unfold py_getitem. cbn [length].
  replace (0 <? 0)%Z with false by reflexivity.
  destruct (Z.ltb_spec 0 (Z.of_nat (S (length l)))) as [_ | H]; [ | lia].
  reflexivity.
Qed.

(** C10: when all the generated spikes are plotted, each spike is drawn
    against a time axis on which its minimum sample sits at
    [(argmin(spikes_gen[0]) + 1) / fs], the same time for every spike. *)
Theorem aligned_minima_coincide (fs : R) (spikes_gen : list (list R))
    (first : list R) :
  fs <> 0 ->
  hd_error spikes_gen = Some first ->
  Forall (fun spike => spike <> []) spikes_gen ->
  let align_point := INR (argmin_index first) / fs in
  plot_gen_spikes fs spikes_gen None
  = mkRun (flat_map (aligned_calls fs align_point) spikes_gen) (Ok tt)
  /\ forall spike, In spike spikes_gen ->
       np_argmin spike = Ok (argmin_index spike)
       /\ (exists m, nth_error spike (argmin_index spike) = Some m
                     /\ Forall (Rle m) spike)
       /\ nth_error (aligned_times fs align_point spike) (argmin_index spike)
          = Some ((INR (argmin_index first) + 1) / fs).
Proof.
  intros Hfs Hhd Hne align_point.
  destruct spikes_gen as [ | s0 rest]; [discriminate | ].
  injection Hhd as ->.
  assert (Hfirst : first <> []) by (inversion Hne; assumption).
  split.
  - unfold plot_gen_spikes. rewrite py_getitem_first, bind_lift_ok.
    rewrite np_argmin_ok by assumption. rewrite bind_lift_ok.
    now apply plot_aligned_ok.
  - intros spike Hin.
    assert (Hs : spike <> []) by (rewrite Forall_forall in Hne; auto).
    split; [now apply np_argmin_ok | ].
    split; [apply (argmin_index_minimum spike Hs) | ].
    now apply aligned_time_of_minimum.
Qed.

Example argmin_index_3_1_2 : argmin_index [3; 1; 2] = 1%nat.
Proof.
  unfold argmin_index. cbn [argmin_from].
  destruct (Rlt_dec 1 3) as [_ | N]; [ | lra].
  destruct (Rlt_dec 2 1) as [H | _]; [lra | reflexivity].
Qed.

Lemma aligned_minima_coincide_witness :
  (1 : R) <> 0
  /\ hd_error [[3; 1; 2]; [0; 5]] = Some [3; 1; 2]
  /\ Forall (fun spike : list R => spike <> []) [[3; 1; 2]; [0; 5]]
  /\ nth_error (aligned_times 1 (INR (argmin_index [3; 1; 2]) / 1) [0; 5])
               (argmin_index [0; 5])
     = Some ((INR (argmin_index [3; 1; 2]) + 1) / 1).
Proof.
  assert (H1 : (1 : R) <> 0) by lra.
  assert (H2 : hd_error [[3; 1; 2]; [0; 5]] = Some [3; 1; 2])
    by reflexivity.
  assert (H3 : Forall (fun spike : list R => spike <> [])
                      [[3; 1; 2]; [0; 5]])
    by (repeat constructor; discriminate).
  split; [exact H1 | split; [exact H2 | split; [exact H3 | ]]].
  refine (proj2 (proj2 (proj2 (aligned_minima_coincide 1 _ _ H1 H2 H3)
                          [0; 5] _))).
  right. left. reflexivity.
Defined.

(** * Further properties of the pipeline *)

(** ** Splitting at any integer *)

Lemma region_k_lastn {A : Type} (s : Z) (a : list A) :
  (- Z.of_nat (length a) <= s < 0)%Z ->
  region_k s a = skipn (length a - Z.to_nat (- s)) a
  /\ length (region_k s a) = Z.to_nat (- s).
Proof.
  intros Hs.
  assert (Hb : slice_bound (Z.of_nat (length a)) s
               = (s + Z.of_nat (length a))%Z).
  { unfold slice_bound. destruct (Z.ltb_spec s 0); lia. }
  rewrite length_region_k, region_k_skipn, Hb.
  split; [f_equal; lia | lia].
Qed.

(** The two regions partition the array for every integer split index, also
    a negative one (which counts from the end, leaving the last [-s] samples
    to the potassium region) and one past either end (which leaves one
    region empty). *)
Theorem regions_partition_any_split {A : Type} (a : list A) (s : Z) :
  region_cond s a ++ region_k s a = a
  /\ (length (region_cond s a) + length (region_k s a) = length a)%nat
  /\ ((- Z.of_nat (length a) <= s < 0)%Z ->
        length (region_k s a) = Z.to_nat (- s)
        /\ region_k s a = skipn (length a - Z.to_nat (- s)) a)
  /\ ((Z.of_nat (length a) <= s)%Z ->
        region_cond s a = a /\ region_k s a = [])
  /\ ((s <= - Z.of_nat (length a))%Z ->
        region_cond s a = [] /\ region_k s a = a).
Proof.
  pose proof (regions_app s a) as Happ.
  split; [exact Happ | ].
  split.
  { rewrite <- Happ at 3. now rewrite length_app. }
  split.
  { intros Hs. destruct (region_k_lastn s a Hs). now split. }
  split.
  - intros Hs. rewrite region_cond_firstn, region_k_skipn.
    rewrite slice_bound_above by lia. rewrite Nat2Z.id.
    split; [apply firstn_all | apply skipn_all].
  - intros Hs. rewrite region_cond_firstn, region_k_skipn.
    assert (Hb : slice_bound (Z.of_nat (length a)) s = 0%Z).
    { unfold slice_bound. destruct (Z.ltb_spec s 0); lia. }
    rewrite Hb. split; reflexivity.
Qed.

Lemma regions_partition_any_split_witness :
  (- Z.of_nat (length [1; 2; 3; 4]%nat) <= -1 < 0)%Z
  /\ region_k (-1) [1; 2; 3; 4]%nat
     = skipn (length [1; 2; 3; 4]%nat - Z.to_nat (- -1)) [1; 2; 3; 4]%nat.
Proof.
  assert (H : (- Z.of_nat (length [1; 2; 3; 4]%nat) <= -1 < 0)%Z)
    by (simpl; lia).
  split; [exact H | ].
  exact (proj2 (proj1 (proj2 (proj2
           (regions_partition_any_split [1; 2; 3; 4]%nat (-1)))) H)).
Defined.

(** ** The split index and the centre fraction *)

Lemma Int_part_monotone (x y : R) : x <= y -> (Int_part x <= Int_part y)%Z.
Proof.
  intros Hxy.
  pose proof (Int_part_bounds x) as Hx. pose proof (Int_part_bounds y) as Hy.
  apply Z.lt_succ_r, lt_IZR. rewrite succ_IZR. lra.
Qed.

Lemma py_int_monotone (x y : R) : x <= y -> (py_int x <= py_int y)%Z.
Proof.
  intros Hxy. unfold py_int.
  destruct (Rle_dec 0 x) as [Hx | Hx], (Rle_dec 0 y) as [Hy | Hy].
  - now apply Int_part_monotone.
  - lra.
  - assert (H1 : (0 <= Int_part (- x))%Z).
    { replace 0%Z with (Int_part 0) by (apply Int_part_unique; lra).
      apply Int_part_monotone. lra. }
    assert (H2 : (0 <= Int_part y)%Z).
    { replace 0%Z with (Int_part 0) by (apply Int_part_unique; lra).
      now apply Int_part_monotone. }
    lia.
  - assert (H : (Int_part (- y) <= Int_part (- x))%Z)
      by (apply Int_part_monotone; lra).
    lia.
Qed.

(** On cycles of the same length a larger centre fraction never gives a
    smaller split index: the float64 product and its truncation are both
    monotone. *)
Theorem split_index_monotone (rnd : rounding) (df1 df2 : CycleRecord)
    (L : nat) :
  rounding_monotone rnd ->
  Na_center df1 <= Na_center df2 ->
  (split_index rnd df1 L <= split_index rnd df2 L)%Z.
Proof.
  intros Hmono Hc. unfold split_index. apply py_int_monotone.
  apply Hmono.
  apply Rmult_le_compat_r; [apply pos_INR | exact Hc].
Qed.

Lemma split_index_monotone_witness :
  rounding_monotone exact_rounding
  /\ Na_center (row_with_center (1 / 4)) <= Na_center (row_with_center (3 / 4))
  /\ (split_index exact_rounding (row_with_center (1 / 4)) 5
      <= split_index exact_rounding (row_with_center (3 / 4)) 5)%Z.
Proof.
  assert (M : rounding_monotone exact_rounding)
    by (intros x y Hxy; exact Hxy).
  assert (H : Na_center (row_with_center (1 / 4))
              <= Na_center (row_with_center (3 / 4))) by (simpl; lra).
  split; [exact M | split; [exact H | ]].
  exact (split_index_monotone exact_rounding (row_with_center (1 / 4))
                              (row_with_center (3 / 4)) 5 M H).
Defined.

(** When the float64 product [Na_center * L] is in [[0, 1)] the split is at
    0: the conductive region of any residual is then empty and the potassium
    region is the whole residual. A centre fraction of exactly 1 splits at
    [L] (the product is [L], a float64 number) and leaves the potassium
    region of a residual of length [L] empty. *)
Theorem split_index_at_the_ends (rnd : rounding) (df_features : CycleRecord)
    (L : nat) (rem_sig : list R) :
  (0 <= rnd (Na_center df_features * INR L) < 1 ->
     split_index rnd df_features L = 0%Z
     /\ region_cond (split_index rnd df_features L) rem_sig = []
     /\ region_k (split_index rnd df_features L) rem_sig = rem_sig)
  /\ (Na_center df_features = 1 -> rnd (INR L) = INR L ->
      length rem_sig = L ->
        split_index rnd df_features L = Z.of_nat L
        /\ region_k (split_index rnd df_features L) rem_sig = []
        /\ region_cond (split_index rnd df_features L) rem_sig = rem_sig).
Proof.
  split.
  - intros Hx.
    assert (E : split_index rnd df_features L = 0%Z).
    { unfold split_index. apply py_int_nonneg; lra. }
    rewrite E. split; [reflexivity | ].
    split; [apply region_cond_zero | apply region_k_zero].
  - intros Hc HL Hlen.
    assert (E : split_index rnd df_features L = Z.of_nat L).
    { unfold split_index. rewrite Hc, Rmult_1_l, HL.
      pose proof (pos_INR L).
      apply py_int_nonneg; [assumption | ].
      rewrite <- INR_IZR_INZ. lra. }
    rewrite E, <- Hlen. split; [reflexivity | ].
    split; [apply region_k_full | apply region_cond_full].
Qed.

Lemma split_index_at_the_ends_witness :
  0 <= exact_rounding (Na_center (row_with_center (1 / 8)) * INR 5) < 1
  /\ split_index exact_rounding (row_with_center (1 / 8)) 5 = 0%Z.
Proof.
  assert (H : 0 <= exact_rounding
                     (Na_center (row_with_center (1 / 8)) * INR 5) < 1)
    by (unfold exact_rounding; simpl; lra).
  split; [exact H | ].
  exact (proj1 (proj1 (split_index_at_the_ends exact_rounding
                         (row_with_center (1 / 8)) 5
                         [1; 2; 3; 4; 5]) H)).
Defined.

(** ** Time axes *)

Lemma nth_error_np_arange0 (n i : nat) (fs : R) :
  fs <> 0 -> (i < n)%nat ->
  nth_error (np_arange0 n (1 / fs)) i = Some (INR i / fs).
Proof.
  intros Hfs Hi. unfold np_arange0.
  rewrite nth_error_map, nth_error_seq.
  destruct (Nat.ltb_spec i n) as [_ | Hge]; [ | lia].
  simpl. f_equal. field. exact Hfs.
Qed.

(** With a non-zero sampling rate the extractor returns normally, and its
    time axis holds [i / fs] at the index [i] of every sample of the cycle:
    it starts at 0 whatever [sample_start] is. *)
Theorem extractor_time_axis (df_features : CycleRecord) (sig : list R)
    (fs : R) :
  fs <> 0 ->
  exists times_cyc,
    outcome (waveform_extractor df_features sig fs)
    = Ok (extract_cycle df_features sig, times_cyc)
    /\ forall i, (i < length (extract_cycle df_features sig))%nat ->
         nth_error times_cyc i = Some (INR i / fs).
Proof.
  intros Hfs. rewrite waveform_extractor_ok by assumption.
  eexists. split; [reflexivity | ].
  intros i Hi. now apply nth_error_np_arange0.
Qed.

Lemma extractor_time_axis_witness :
  (2 : R) <> 0
  /\ exists times_cyc,
       outcome (waveform_extractor (row_of 1 2) [5; 6; 7; 8] 2)
       = Ok (extract_cycle (row_of 1 2) [5; 6; 7; 8], times_cyc)
       /\ forall i,
            (i < length (extract_cycle (row_of 1 2) [5; 6; 7; 8]%R))%nat ->
            nth_error times_cyc i = Some (INR i / 2).
Proof.
  assert (H : (2 : R) <> 0) by lra.
  split; [exact H | ].
  exact (extractor_time_axis (row_of 1 2) [5; 6; 7; 8] 2 H).
Defined.

(** ** Failures of a run *)












Section PipelineEdges.
Variable rnd : rounding.
Variable sim : R -> R -> R -> R -> R -> R -> list R.





Lemma fit_regions_outcome (df_features : CycleRecord) (fs : R)
    (sig_cyc na_gaus rem_sig_cond rem_sig_k times_cond times_k : list R) :
  let cond_gaus := sim (INR (length rem_sig_cond) / fs) fs
                       (Cond_center df_features) (Cond_std df_features)
                       (Cond_alpha df_features) (Cond_height df_features) in
  let k_gaus := sim (INR (length rem_sig_k) / fs) fs
                    (K_center df_features) (K_std df_features)
                    (K_alpha df_features) (K_height df_features) in
  fs <> 0 ->
  outcome (fit_regions sim df_features fs sig_cyc na_gaus
                       rem_sig_cond rem_sig_k times_cond times_k)
  = if ((length times_k =? length k_gaus)%nat
        && (length times_cond =? length cond_gaus)%nat)%bool
    then Ok tt else Raise ValueError.
Proof.
  intros cond_gaus k_gaus Hfs. unfold fit_regions.
  rewrite !py_truediv_ok by assumption. rewrite !bind_lift_ok.
  rewrite bind_simulate. fold cond_gaus.
  rewrite bind_simulate. fold k_gaus.
  unfold plot_xy. rewrite !length_scale.
  cbn [bind emit ret calls outcome app plot_sing_gaus].
  destruct (Nat.eqb (length times_k) (length k_gaus));
    destruct (Nat.eqb (length times_cond) (length cond_gaus)); reflexivity.
Qed.

(** The fits block (lines 173-193): at a sampling rate of zero it ends with
    [ZeroDivisionError] before any call; at any other rate it calls the
    synthesizer twice and then returns normally exactly when each fit has
    the length of the time axis of its region; otherwise matplotlib's length
    check ends it with [ValueError]. *)
Theorem fit_regions_returns_iff (df_features : CycleRecord) (fs : R)
    (sig_cyc na_gaus rem_sig_cond rem_sig_k times_cond times_k : list R) :
  let cond_gaus := sim (INR (length rem_sig_cond) / fs) fs
                       (Cond_center df_features) (Cond_std df_features)
                       (Cond_alpha df_features) (Cond_height df_features) in
  let k_gaus := sim (INR (length rem_sig_k) / fs) fs
                    (K_center df_features) (K_std df_features)
                    (K_alpha df_features) (K_height df_features) in
  let block := fit_regions sim df_features fs sig_cyc na_gaus
                           rem_sig_cond rem_sig_k times_cond times_k in
  (fs = 0 -> block = mkRun [] (Raise ZeroDivisionError))
  /\ (fs <> 0 ->
      (outcome block = Ok tt
       <-> length times_k = length k_gaus
           /\ length times_cond = length cond_gaus)
      /\ (outcome block = Ok tt \/ outcome block = Raise ValueError)
      /\ length (sim_calls block) = 2%nat).
Proof.
  intros cond_gaus k_gaus block. split.
  - intros ->. subst block. unfold fit_regions.
    rewrite py_truediv_zero. reflexivity.
  - intros Hfs.
    pose proof (fit_regions_outcome df_features fs sig_cyc na_gaus
                  rem_sig_cond rem_sig_k times_cond times_k Hfs) as Hout.
    fold k_gaus cond_gaus block in Hout.
    split; [ | split].
    + rewrite Hout.
      destruct (Nat.eqb_spec (length times_k) (length k_gaus)) as [Ek | Nk];
        destruct (Nat.eqb_spec (length times_cond) (length cond_gaus))
          as [Ec | Nc]; cbn [andb];
        (split; [intros H; try discriminate H; now split
                | intros [H1 H2]; congruence]).
    + rewrite Hout.
      destruct ((length times_k =? length k_gaus)%nat
                && (length times_cond =? length cond_gaus)%nat)%bool; auto.
    + subst block. unfold fit_regions, sim_calls.
      rewrite !py_truediv_ok by assumption. rewrite !bind_lift_ok.
      unfold simulate, plot_sing_gaus, plot_xy.
      cbn [bind emit ret calls outcome app].
      destruct (Nat.eqb (length (scale fs times_k)) _);
        destruct (Nat.eqb (length (scale fs times_cond)) _);
        reflexivity.
Qed.

End PipelineEdges.


Lemma fit_regions_returns_iff_witness :
  (1 : R) <> 0
  /\ length (sim_calls (fit_regions (flat_cycle 2) (row_of 0 3) 1
                                    [1; 2; 3; 4] [0; 0; 0; 0] [1; 2] [3; 4]
                                    [0; 1] [2; 3])) = 2%nat.
Proof.
  assert (H1 : (1 : R) <> 0) by lra.
  split; [exact H1 | ].
  exact (proj2 (proj2 (proj2 (fit_regions_returns_iff (flat_cycle 2)
                                (row_of 0 3) 1 [1; 2; 3; 4] [0; 0; 0; 0]
                                [1; 2] [3; 4] [0; 1] [2; 3]) H1))).
Defined.


(** ** Generated spikes *)

Lemma py_getitem_nonneg {A : Type} (a : list A) (i : Z) (x : A) :
  (0 <= i)%Z -> nth_error a (Z.to_nat i) = Some x -> py_getitem a i = Ok x.
Proof.
  intros Hi Hx. unfold py_getitem.
  assert (Hlt : (Z.to_nat i < length a)%nat)
    by (apply nth_error_Some; congruence).
  destruct (Z.ltb_spec i 0) as [H | _]; [lia | ].
  destruct (Z.leb_spec 0 i) as [_ | H]; [ | lia].
  destruct (Z.ltb_spec i (Z.of_nat (length a))) as [_ | H]; [ | lia].
  cbn [andb]. now rewrite Hx.
Qed.

Lemma py_getitem_negative {A : Type} (a : list A) (i : Z) (x : A) :
  (i < 0)%Z -> (0 <= i + Z.of_nat (length a))%Z ->
  nth_error a (Z.to_nat (i + Z.of_nat (length a))) = Some x ->
  py_getitem a i = Ok x.
Proof.
  intros Hi Hn Hx. unfold py_getitem.
  destruct (Z.ltb_spec i 0) as [_ | H]; [ | lia].
  destruct (Z.leb_spec 0 (i + Z.of_nat (length a))) as [_ | H]; [ | lia].
  destruct (Z.ltb_spec (i + Z.of_nat (length a)) (Z.of_nat (length a)))
    as [_ | H]; [ | lia].
  cbn [andb]. now rewrite Hx.
Qed.

Lemma py_getitem_out_of_range {A : Type} (a : list A) (i : Z) :
  (Z.of_nat (length a) <= i \/ i < - Z.of_nat (length a))%Z ->
  py_getitem a i = Raise IndexError.
Proof.
  intros Hi. unfold py_getitem.
  destruct (Z.ltb_spec i 0) as [Hneg | Hpos].
  - destruct (Z.leb_spec 0 (i + Z.of_nat (length a))) as [H | _]; [lia | ].
    reflexivity.
  - destruct (Z.leb_spec 0 i) as [_ | H]; [ | lia].
    destruct (Z.ltb_spec i (Z.of_nat (length a))) as [H | _]; [lia | ].
    reflexivity.
Qed.

Lemma py_getitem_in_range {A : Type} (a : list A) (i : Z) :
  (- Z.of_nat (length a) <= i < Z.of_nat (length a))%Z ->
  exists x,
    py_getitem a i = Ok x
    /\ nth_error a (Z.to_nat (if (i <? 0)%Z then i + Z.of_nat (length a)
                              else i)) = Some x.
Proof.
  intros Hi. destruct (Z.ltb_spec i 0) as [Hneg | Hpos].
  - destruct (nth_error a (Z.to_nat (i + Z.of_nat (length a)))) as [x | ]
      eqn:E.
    + exists x. split; [apply py_getitem_negative; trivial; lia | reflexivity].
    + apply nth_error_None in E. lia.
  - destruct (nth_error a (Z.to_nat i)) as [x | ] eqn:E.
    + exists x. split; [now apply py_getitem_nonneg | reflexivity].
    + apply nth_error_None in E. lia.
Qed.

Lemma comprehension_plain (fs : R) (times : list nat) :
  fs <> 0 ->
  comprehension (fun x => py_truediv (INR x) fs) times
  = Ok (map (fun x => INR x / fs) times).
Proof.
  intros Hfs. induction times as [ | x t IH]; [reflexivity | ].
  cbn [comprehension map]. rewrite py_truediv_ok by assumption.
  now rewrite IH.
Qed.

Lemma plot_gen_spikes_single_run (fs : R) (spikes_gen : list (list R))
    (i : Z) (spike : list R) :
  fs <> 0 -> py_getitem spikes_gen i = Ok spike ->
  plot_gen_spikes fs spikes_gen (Some i)
  = mkRun [plt_plot_xy (single_times fs spike) spike;
           plt_ylabel "Voltage (uV)"] (Ok tt).
Proof.
  intros Hfs Hget. unfold plot_gen_spikes. rewrite Hget, bind_lift_ok.
  rewrite comprehension_plain by assumption. rewrite bind_lift_ok.
  fold (single_times fs spike).
  rewrite plot_xy_ok
    by (unfold single_times; now rewrite length_map, length_seq).
  reflexivity.
Qed.

Lemma nth_error_single_times (fs : R) (spike : list R) (k : nat) :
  (k < length spike)%nat ->
  nth_error (single_times fs spike) k = Some ((INR k + 1) / fs).
Proof.
  intros Hk. unfold single_times. rewrite nth_error_map, nth_error_seq.
  destruct (Nat.ltb_spec k (length spike)) as [_ | H]; [ | lia].
  cbn [option_map]. change (1 + k)%nat with (S k). now rewrite S_INR.
Qed.

(** A single generated spike: with a non-zero sampling rate and an index in
    range (a negative one counting from the end), the run draws the indexed
    spike once and returns normally; the time of its [k]-th sample is
    [(k + 1) / fs], so the axis starts at [1 / fs]. *)
Theorem plot_gen_spikes_single (fs : R) (spikes_gen : list (list R))
    (i : Z) :
  fs <> 0 ->
  (- Z.of_nat (length spikes_gen) <= i < Z.of_nat (length spikes_gen))%Z ->
  exists spike times,
    nth_error spikes_gen
              (Z.to_nat (if (i <? 0)%Z
                         then i + Z.of_nat (length spikes_gen) else i))
    = Some spike
    /\ plot_gen_spikes fs spikes_gen (Some i)
       = mkRun [plt_plot_xy times spike; plt_ylabel "Voltage (uV)"] (Ok tt)
    /\ length times = length spike
    /\ forall k, (k < length spike)%nat ->
         nth_error times k = Some ((INR k + 1) / fs).
Proof.
  intros Hfs Hi.
  destruct (py_getitem_in_range spikes_gen i Hi) as (spike & Hget & Hnth).
  exists spike, (single_times fs spike).
  split; [exact Hnth | ].
  split; [now apply plot_gen_spikes_single_run | ].
  split.
  - unfold single_times. now rewrite length_map, length_seq.
  - intros k Hk. now apply nth_error_single_times.
Qed.

Lemma plot_gen_spikes_single_witness :
  (2 : R) <> 0
  /\ (- Z.of_nat (length [[3; 1; 2]; [0; 5]]) <= -1
      < Z.of_nat (length [[3; 1; 2]; [0; 5]]))%Z
  /\ exists spike times,
       nth_error [[3; 1; 2]; [0; 5]]
                 (Z.to_nat (if (-1 <? 0)%Z
                            then -1 + Z.of_nat (length [[3; 1; 2]; [0; 5]])
                            else -1))
       = Some spike
       /\ plot_gen_spikes 2 [[3; 1; 2]; [0; 5]] (Some (-1)%Z)
          = mkRun [plt_plot_xy times spike; plt_ylabel "Voltage (uV)"] (Ok tt)
       /\ length times = length spike
       /\ forall k, (k < length spike)%nat ->
            nth_error times k = Some ((INR k + 1) / 2).
Proof.
  assert (H1 : (2 : R) <> 0) by lra.
  assert (H2 : (- Z.of_nat (length [[3; 1; 2]; [0; 5]]) <= -1
                < Z.of_nat (length [[3; 1; 2]; [0; 5]]))%Z) by (simpl; lia).
  split; [exact H1 | split; [exact H2 | ]].
  exact (plot_gen_spikes_single 2 [[3; 1; 2]; [0; 5]] (-1) H1 H2).
Defined.

(** The failures of the single-spike branch: an index outside
    [[-len, len)] ends the run with [IndexError]; a sampling rate of zero
    ends it with [ZeroDivisionError] when the spike has samples, and goes
    unnoticed when the spike is empty (no division takes place). In the
    failing cases nothing is drawn. *)
Theorem plot_gen_spikes_single_failures (fs : R)
    (spikes_gen : list (list R)) (i : Z) :
  ((Z.of_nat (length spikes_gen) <= i
    \/ i < - Z.of_nat (length spikes_gen))%Z ->
     plot_gen_spikes fs spikes_gen (Some i) = mkRun [] (Raise IndexError))
  /\ (forall spike,
        py_getitem spikes_gen i = Ok spike -> fs = 0 -> spike <> [] ->
        plot_gen_spikes fs spikes_gen (Some i)
        = mkRun [] (Raise ZeroDivisionError))
  /\ (py_getitem spikes_gen i = Ok [] ->
        plot_gen_spikes fs spikes_gen (Some i)
        = mkRun [plt_plot_xy [] []; plt_ylabel "Voltage (uV)"] (Ok tt)).
Proof.
  split; [ | split].
  - intros Hi. unfold plot_gen_spikes.
    rewrite py_getitem_out_of_range by assumption. reflexivity.
  - intros spike Hget -> Hne. unfold plot_gen_spikes.
    rewrite Hget, bind_lift_ok.
    destruct spike as [ | x t]; [contradiction | ].
    cbn [length seq comprehension]. rewrite py_truediv_zero. reflexivity.
  - intros Hget. unfold plot_gen_spikes. rewrite Hget, bind_lift_ok.
    reflexivity.
Qed.

Lemma plot_gen_spikes_single_failures_witness :
  (Z.of_nat (length [[3; 1; 2]; [0; 5]]) <= 2
   \/ 2 < - Z.of_nat (length [[3; 1; 2]; [0; 5]]))%Z
  /\ plot_gen_spikes 1 [[3; 1; 2]; [0; 5]] (Some 2%Z)
     = mkRun [] (Raise IndexError).
Proof.
  assert (H : (Z.of_nat (length [[3; 1; 2]; [0; 5]]) <= 2
               \/ 2 < - Z.of_nat (length [[3; 1; 2]; [0; 5]]))%Z)
    by (left; simpl; lia).
  split; [exact H | ].
  exact (proj1 (plot_gen_spikes_single_failures 1 [[3; 1; 2]; [0; 5]] 2) H).
Defined.

Lemma plot_aligned_app (fs align_point : R) (pre post : list (list R)) :
  fs <> 0 -> Forall (fun spike => spike <> []) pre ->
  plot_aligned fs align_point (pre ++ post)
  = mkRun (flat_map (aligned_calls fs align_point) pre
           ++ calls (plot_aligned fs align_point post))
          (outcome (plot_aligned fs align_point post)).
Proof.
  intros Hfs Hne. induction Hne as [ | spike rest Hs _ IH].
  - cbn [app flat_map]. now destruct (plot_aligned fs align_point post).
  - cbn [app plot_aligned flat_map].
    rewrite np_argmin_ok by assumption. rewrite bind_lift_ok.
    rewrite comprehension_shifted by assumption. rewrite bind_lift_ok.
    fold (aligned_times fs align_point spike).
    rewrite plot_xy_ok by apply length_aligned_times.
    rewrite IH. reflexivity.
Qed.

(** The failures of the all-spikes branch: no spike at all ends the run with
    [IndexError]; an empty spike ends it with [ValueError] (from
    [np.argmin]), after the spikes before it have been drawn; a sampling rate
    of zero ends it with [ZeroDivisionError] before anything is drawn. *)
Theorem plot_gen_spikes_all_failures (fs : R) :
  plot_gen_spikes fs [] None = mkRun [] (Raise IndexError)
  /\ (forall rest,
        plot_gen_spikes fs ([] :: rest) None = mkRun [] (Raise ValueError))
  /\ (forall first pre post,
        fs <> 0 -> first <> [] ->
        Forall (fun spike => spike <> []) pre ->
        plot_gen_spikes fs (first :: pre ++ [] :: post) None
        = mkRun (flat_map (aligned_calls fs (INR (argmin_index first) / fs))
                          (first :: pre))
                (Raise ValueError))
  /\ (forall first rest,
        fs = 0 -> first <> [] ->
        plot_gen_spikes fs (first :: rest) None
        = mkRun [] (Raise ZeroDivisionError)).
Proof.
  split; [reflexivity | ].
  split; [intros rest; reflexivity | ].
  split.
  - intros first pre post Hfs Hfirst Hpre.
    unfold plot_gen_spikes. rewrite py_getitem_first, bind_lift_ok.
    rewrite np_argmin_ok by assumption. rewrite bind_lift_ok.
    change (first :: pre ++ [] :: post)
      with ((first :: pre) ++ [] :: post).
    rewrite plot_aligned_app by (trivial; now constructor).
    cbn [plot_aligned np_argmin lift bind calls outcome].
    now rewrite app_nil_r.
  - intros first rest -> Hfirst.
    unfold plot_gen_spikes. rewrite py_getitem_first, bind_lift_ok.
    rewrite np_argmin_ok by assumption. rewrite bind_lift_ok.
    cbn [plot_aligned]. rewrite np_argmin_ok by assumption.
    rewrite bind_lift_ok.
    destruct first as [ | x t]; [contradiction | ].
    cbn [length seq comprehension]. rewrite py_truediv_zero. reflexivity.
Qed.

Lemma plot_gen_spikes_all_failures_witness :
  (1 : R) <> 0 /\ [3; 1; 2] <> []
  /\ Forall (fun spike : list R => spike <> []) [[0; 5]]
  /\ outcome (plot_gen_spikes 1 ([3; 1; 2] :: [[0; 5]] ++ [] :: [[4]]) None)
     = Raise ValueError.
Proof.
  assert (H1 : (1 : R) <> 0) by lra.
  assert (H2 : [3; 1; 2] <> ([] : list R)) by discriminate.
  assert (H3 : Forall (fun spike : list R => spike <> []) [[0; 5]])
    by (repeat constructor; discriminate).
  split; [exact H1 | split; [exact H2 | split; [exact H3 | ]]].
  rewrite (proj1 (proj2 (proj2 (plot_gen_spikes_all_failures 1)))
             [3; 1; 2] [[0; 5]] [[4]] H1 H2 H3).
  reflexivity.
Defined.

Lemma aligned_times_first (fs : R) (first : list R) :
  aligned_times fs (INR (argmin_index first) / fs) first
  = single_times fs first.
Proof.
  unfold aligned_times, single_times. apply map_ext.
  intros x. unfold Rdiv. ring.
Qed.

(** Drawing all the spikes starts by drawing the first one exactly as the
    single-spike branch draws it (its own shift is zero); the other spikes
    follow, each on its aligned axis. *)
Theorem plot_gen_spikes_all_starts_with_first (fs : R)
    (first : list R) (rest : list (list R)) :
  fs <> 0 -> first <> [] -> Forall (fun spike => spike <> []) rest ->
  plot_gen_spikes fs (first :: rest) None
  = mkRun (calls (plot_gen_spikes fs (first :: rest) (Some 0%Z))
           ++ flat_map (aligned_calls fs (INR (argmin_index first) / fs))
                       rest)
          (Ok tt).
Proof.
  intros Hfs Hfirst Hrest.
  rewrite (plot_gen_spikes_single_run fs (first :: rest) 0 first Hfs
             (py_getitem_first first rest)).
  unfold plot_gen_spikes at 1. rewrite py_getitem_first, bind_lift_ok.
  rewrite np_argmin_ok by assumption. rewrite bind_lift_ok.
  rewrite plot_aligned_ok by (trivial; now constructor).
  cbn [flat_map calls]. unfold aligned_calls at 1.
  now rewrite aligned_times_first.
Qed.

Lemma plot_gen_spikes_all_starts_with_first_witness :
  (2 : R) <> 0 /\ [3; 1; 2] <> []
  /\ Forall (fun spike : list R => spike <> []) [[0; 5]]
  /\ plot_gen_spikes 2 ([3; 1; 2] :: [[0; 5]]) None
     = mkRun (calls (plot_gen_spikes 2 ([3; 1; 2] :: [[0; 5]]) (Some 0%Z))
              ++ flat_map (aligned_calls 2 (INR (argmin_index [3; 1; 2]) / 2))
                          [[0; 5]])
             (Ok tt).
Proof.
  assert (H1 : (2 : R) <> 0) by lra.
  assert (H2 : [3; 1; 2] <> ([] : list R)) by discriminate.
  assert (H3 : Forall (fun spike : list R => spike <> []) [[0; 5]])
    by (repeat constructor; discriminate).
  split; [exact H1 | split; [exact H2 | split; [exact H3 | ]]].
  exact (plot_gen_spikes_all_starts_with_first 2 [3; 1; 2] [[0; 5]]
           H1 H2 H3).
Defined.

Lemma nth_error_aligned_calls (fs align_point : R) (spikes : list (list R)) :
  forall i spike,
    nth_error spikes i = Some spike ->
    nth_error (flat_map (aligned_calls fs align_point) spikes) (2 * i)
    = Some (plt_plot_xy (aligned_times fs align_point spike) spike).
Proof.
  induction spikes as [ | s rest IH]; intros i spike Hi.
  - destruct i; discriminate Hi.
  - destruct i as [ | i].
    + injection Hi as ->. reflexivity.
    + replace (2 * S i)%nat with (S (S (2 * i))) by lia.
      cbn [flat_map aligned_calls app nth_error]. now apply IH.
Qed.

Lemma nth_error_aligned_times (fs : R) (am0 : nat) (spike : list R)
    (k : nat) :
  fs <> 0 -> (k < length spike)%nat ->
  nth_error (aligned_times fs (INR am0 / fs) spike) k
  = Some ((INR k + 1 + INR am0 - INR (argmin_index spike)) / fs).
Proof.
  intros Hfs Hk. unfold aligned_times.
  rewrite nth_error_map, nth_error_seq.
  destruct (Nat.ltb_spec k (length spike)) as [_ | H]; [ | lia].
  cbn [option_map]. f_equal. change (1 + k)%nat with (S k).
  rewrite S_INR. field. exact Hfs.
Qed.

(** Where the samples of each spike are drawn: the [i]-th spike is the
    [2 i]-th call of the run, and its [k]-th sample sits at time
    [(k + 1 + argmin(spikes_gen[0]) - argmin(spike)) / fs]; the axis keeps
    the sampling interval and has one entry per sample. *)
Theorem plot_gen_spikes_aligned_axis (fs : R) (spikes_gen : list (list R))
    (first : list R) :
  fs <> 0 ->
  hd_error spikes_gen = Some first ->
  Forall (fun spike => spike <> []) spikes_gen ->
  forall i spike,
    nth_error spikes_gen i = Some spike ->
    exists times,
      nth_error (calls (plot_gen_spikes fs spikes_gen None)) (2 * i)
      = Some (plt_plot_xy times spike)
      /\ length times = length spike
      /\ forall k, (k < length spike)%nat ->
           nth_error times k
           = Some ((INR k + 1 + INR (argmin_index first)
                    - INR (argmin_index spike)) / fs).
Proof.
  intros Hfs Hhd Hne i spike Hi.
  destruct spikes_gen as [ | s0 rest]; [discriminate | ].
  injection Hhd as ->.
  assert (Hfirst : first <> []) by (inversion Hne; assumption).
  exists (aligned_times fs (INR (argmin_index first) / fs) spike).
  split.
  - unfold plot_gen_spikes. rewrite py_getitem_first, bind_lift_ok.
    rewrite np_argmin_ok by assumption. rewrite bind_lift_ok.
    rewrite plot_aligned_ok by assumption. cbn [calls].
    now apply nth_error_aligned_calls.
  - split; [apply length_aligned_times | ].
    intros k Hk. now apply nth_error_aligned_times.
Qed.

Lemma plot_gen_spikes_aligned_axis_witness :
  (2 : R) <> 0
  /\ hd_error [[3; 1; 2]; [0; 5]] = Some [3; 1; 2]
  /\ Forall (fun spike : list R => spike <> []) [[3; 1; 2]; [0; 5]]
  /\ nth_error [[3; 1; 2]; [0; 5]] 1 = Some [0; 5]
  /\ exists times,
       nth_error (calls (plot_gen_spikes 2 [[3; 1; 2]; [0; 5]] None)) (2 * 1)
       = Some (plt_plot_xy times [0; 5])
       /\ length times = length [0; 5]
       /\ forall k, (k < length [0; 5])%nat ->
            nth_error times k
            = Some ((INR k + 1 + INR (argmin_index [3; 1; 2])
                     - INR (argmin_index [0; 5])) / 2).
Proof.
  assert (H1 : (2 : R) <> 0) by lra.
  assert (H2 : hd_error [[3; 1; 2]; [0; 5]] = Some [3; 1; 2])
    by reflexivity.
  assert (H3 : Forall (fun spike : list R => spike <> [])
                      [[3; 1; 2]; [0; 5]])
    by (repeat constructor; discriminate).
  assert (H4 : nth_error [[3; 1; 2]; [0; 5]] 1 = Some [0; 5]) by reflexivity.
  split; [exact H1 | split; [exact H2 | split; [exact H3 | split;
    [exact H4 | ]]]].
  exact (plot_gen_spikes_aligned_axis 2 [[3; 1; 2]; [0; 5]] [3; 1; 2]
           H1 H2 H3 1%nat [0; 5] H4).
Defined.

(** ** Labels, once more *)

(** Whenever [_infer_labels] returns, the centre is 'trough' or 'peak', there
    are three labels and three keys, the first key is the sample column of
    the centre extremum and the last pair is ('Inflection', 'sample_end'). *)
Theorem infer_labels_shape (center_e : string)
    (labels keys : list string) :
  _infer_labels center_e = Ok (labels, keys) ->
  (center_e = "trough"%string \/ center_e = "peak"%string)
  /\ length labels = 3%nat /\ length keys = 3%nat
  /\ nth_error keys 0 = Some ("sample_" ++ center_e)%string
  /\ nth_error keys 2 = Some "sample_end"%string
  /\ nth_error labels 2 = Some "Inflection"%string.
Proof.
  unfold _infer_labels.
  destruct (String.eqb_spec center_e "trough") as [-> | _].
  - intros H. injection H as <- <-. repeat split. now left.
  - destruct (String.eqb_spec center_e "peak") as [-> | _].
    + intros H. injection H as <- <-. repeat split. now right.
    + discriminate.
Qed.

Lemma infer_labels_shape_witness :
  _infer_labels "peak"
  = Ok (["Peak"; "Trough"; "Inflection"]%string,
        ["sample_peak"; "sample_next_trough"; "sample_end"]%string)
  /\ nth_error ["sample_peak"; "sample_next_trough"; "sample_end"]%string 0
     = Some ("sample_" ++ "peak")%string.
Proof.
  assert (H : _infer_labels "peak"
              = Ok (["Peak"; "Trough"; "Inflection"]%string,
                    ["sample_peak"; "sample_next_trough";
                     "sample_end"]%string)) by reflexivity.
  split; [exact H | ].
  exact (proj1 (proj2 (proj2 (proj2 (infer_labels_shape _ _ _ H))))).
Defined.

(** * Properties of [plot_spikes] *)

(** ** Runs *)

Lemma s_bind_returns {A B : Type} (a : A) (f : A -> spikes_run B) :
  s_bind (mkSpikesRun [] (Returns a)) f = f a.
Proof. unfold s_bind. simpl. now destruct (f a). Qed.


Lemma s_bind_ret {A B : Type} (a : A) (f : A -> spikes_run B) :
  s_bind (s_ret a) f = f a.
Proof. apply s_bind_returns. Qed.

Lemma s_bind_builtin_ok {A B : Type} (a : A) (f : A -> spikes_run B) :
  s_bind (builtin (Ok a)) f = f a.
Proof. apply s_bind_returns. Qed.


(** ** Slice assignment and the mask *)



















Section PlotSpikesFacts.
Variable rnd : rounding.
Variable get_extrema_df : DataFrame -> string * string.
Variable limit_signal : list R -> list R -> R -> R -> list R * list R.


(** The stack of spikes: with a non-zero sampling rate the stack is drawn
    once, against a time axis that holds [i / fs] at the index [i] of every
    sample of the first spike; an empty stack ends the run with
    [IndexError]. The table and the signal play no part. *)
Theorem plot_spikes_stack (df_features : DataFrame) (sig : list R)
    (fs : R) (xlim : option (R * R)) :
  plot_spikes rnd get_extrema_df limit_signal df_features sig fs
              (Some []) None xlim
  = mkSpikesRun [check_ax 10 4] (Throws (Builtin IndexError))
  /\ (fs <> 0 ->
      forall first rest,
        exists times,
          plot_spikes rnd get_extrema_df limit_signal df_features sig fs
                      (Some (first :: rest)) None xlim
          = mkSpikesRun [check_ax 10 4;
                         plot_time_series times (Sig2d (first :: rest))
                                          None None None]
                        (Returns tt)
          /\ forall i, (i < length first)%nat ->
               nth_error times i = Some (INR i / fs)).
Proof.
  split; [reflexivity | ].
  intros Hfs first rest.
  exists (np_arange0 (length first) (1 / fs)).
  split.
  - unfold plot_spikes. rewrite py_getitem_first, s_bind_builtin_ok.
    rewrite !py_truediv_ok by assumption. reflexivity.
  - intros i Hi. now apply nth_error_np_arange0.
Qed.

End PlotSpikesFacts.

(** ** Worked examples for [plot_spikes] *)

Example demo_mask :
  spike_mask 6 [1; 4]%Z [4; 6]%Z = [false; true; true; true; true; true].
Proof. reflexivity. Qed.

Example demo_mask_clipped :
  spike_mask 4 [-1; 2]%Z [9; 3]%Z = [false; false; true; true].
Proof. reflexivity. Qed.




Lemma plot_spikes_stack_witness :
  (1 : R) <> 0
  /\ exists times,
       plot_spikes exact_rounding trough_centered no_limit demo_table
                   demo_sig 1 (Some ([1; 2] :: [[3; 4]])) None None
       = mkSpikesRun [check_ax 10 4;
                      plot_time_series times (Sig2d ([1; 2] :: [[3; 4]]))
                                       None None None]
                     (Returns tt)
       /\ forall i, (i < length [1; 2]%R)%nat ->
            nth_error times i = Some (INR i / 1).
Proof.
  assert (H : (1 : R) <> 0) by lra.
  split; [exact H | ].
  exact (proj2 (plot_spikes_stack exact_rounding trough_centered no_limit
                  demo_table demo_sig 1 None) H [1; 2] [[3; 4]]).
Defined.





